(** * listmonk bounce handlers (cmd/bounce.go)

    A shallow embedding of the four HTTP handlers of [cmd/bounce.go]
    ([handleGetBounces], [handleGetSubscriberBounces], [handleDeleteBounces],
    [handleBounceWebhook]) and of [validateBounceFields], with the properties
    the specification states about them.

    Go strings are byte strings: they are Rocq [string]s (lists of 8-bit
    [ascii]).  Go [int]/[int64] values are [Z]; the handlers do no arithmetic
    on them, so no wrap-around is involved outside [strconv].  Effects (the
    recorder, the provider adapters, the database, the logger, the clock) are
    threaded through an error/state/trace monad defined below. *)

From Stdlib Require Import String Ascii List ZArith Bool Lia.
Import ListNotations.
Open Scope string_scope.
Open Scope Z_scope.

(** ** Go standard library: the parts the handlers call *)

(** [strconv]: [ParseInt(s, 10, 64)], [Atoi] and [ParseBool]. *)
Module strconv.

Inductive NumError := ErrSyntax | ErrRange.

Definition maxUint64 : Z := 18446744073709551615.
Definition cutoffUint64 : Z := maxUint64 / 10 + 1.
Definition cutoffInt64 : Z := 9223372036854775808.

Definition isDigit (c : ascii) : bool :=
  (48 <=? Z.of_nat (nat_of_ascii c)) && (Z.of_nat (nat_of_ascii c) <=? 57).

Definition digitVal (c : ascii) : Z := Z.of_nat (nat_of_ascii c) - 48.

(** The digit loop of [ParseUint] in base 10: a non-digit is a syntax
    error; an overflow returns [maxUint64] with a range error at the digit
    where it happens, before the rest of the string is looked at. *)
Fixpoint parseUintLoop (s : string) (n : Z) : Z * option NumError :=
  match s with
  | EmptyString => (n, None)
  | String c rest =>
      if isDigit c then
        if cutoffUint64 <=? n then (maxUint64, Some ErrRange)
        else
          let n1 := n * 10 + digitVal c in
          if maxUint64 <? n1 then (maxUint64, Some ErrRange)
          else parseUintLoop rest n1
      else (0, Some ErrSyntax)
  end.

Definition ParseUint (s : string) : Z * option NumError :=
  match s with
  | EmptyString => (0, Some ErrSyntax)
  | _ => parseUintLoop s 0
  end.

(** [ParseInt(s, 10, 64)]: the value is returned together with the error;
    on a range error the value is the nearest [int64], not 0. *)
Definition ParseInt (s : string) : Z * option NumError :=
  match s with
  | EmptyString => (0, Some ErrSyntax)
  | String c rest =>
      let neg := Ascii.eqb c "-" in
      let body := if Ascii.eqb c "+" || neg then rest else s in
      match ParseUint body with
      | (_, Some ErrSyntax) => (0, Some ErrSyntax)
      | (un, _) =>
          if negb neg && (cutoffInt64 <=? un) then (cutoffInt64 - 1, Some ErrRange)
          else if neg && (cutoffInt64 <? un) then (- cutoffInt64, Some ErrRange)
          else (if neg then - un else un, None)
      end
  end.

(** [Atoi] on a 64-bit platform agrees with [ParseInt(s, 10, 64)]. *)
Definition Atoi (s : string) : Z * option NumError := ParseInt s.

Definition ParseBool (s : string) : bool * option NumError :=
  if existsb (String.eqb s) ["1"; "t"; "T"; "TRUE"; "true"; "True"]
  then (true, None)
  else if existsb (String.eqb s) ["0"; "f"; "F"; "FALSE"; "false"; "False"]
  then (false, None)
  else (false, Some ErrSyntax).

End strconv.

(** [time]: a [Time] is a count of seconds since January 1, year 1,
    00:00:00 UTC (Go's internal epoch), a nanosecond part and the offset of
    its location east of UTC.  The zero value of the struct is that epoch
    itself, in UTC. *)
Module time.

Record Time := mkTime { sec : Z; nsec : Z; offset : Z }.

Definition zero : Time := mkTime 0 0 0.

Definition secondsPerDay : Z := 86400.
Definition daysPer400Years : Z := 146097.
Definition daysPer100Years : Z := 36524.
Definition daysPer4Years : Z := 1461.

(** The year of a day count since January 1, year 1, by the cycle
    arithmetic of Go's [absDate]: 400-year cycles, then 100-year, 4-year
    and single years, with [n -= n >> 2] capping the last cycle.  Go counts
    from a year that is a multiple of 400 years before year 1, so its
    unsigned division agrees with floor division here. *)
Definition yearOfDays (d : Z) : Z :=
  let n400 := d / daysPer400Years in
  let d1 := d - daysPer400Years * n400 in
  let n100 := d1 / daysPer100Years in
  let n100 := n100 - Z.shiftr n100 2 in
  let d2 := d1 - daysPer100Years * n100 in
  let n4 := d2 / daysPer4Years in
  let d3 := d2 - daysPer4Years * n4 in
  let n1 := d3 / 365 in
  let n1 := n1 - Z.shiftr n1 2 in
  400 * n400 + 100 * n100 + 4 * n4 + n1 + 1.

(** [t.Year()], in the location of [t]. *)
Definition Year (t : Time) : Z := yearOfDays ((sec t + offset t) / secondsPerDay).

End time.

(** ** Data model *)

Definition Err := string.

(** Modelled from the spec: [models.Bounce] is declared outside [cmd/bounce.go].
    The fields are those of the Normalized Bounce Record of the data model
    ([id], [subscriberUUID], [email], [campaignID], [source], [type], [meta],
    [createdAt]) together with [Total], which [handleGetBounces] reads.
    [Meta] is a [json.RawMessage], that is, raw bytes. *)
Record Bounce := mkBounce {
  ID : Z;
  Type_ : string;
  Source : string;
  Meta : string;
  CreatedAt : time.Time;
  Email : string;
  SubscriberUUID : string;
  CampaignID : option Z;
  Total : Z
}.

(** The fields a JSON object handed to the native webhook may carry; [None]
    is a field the object does not have. *)
Record BounceJSON := mkBounceJSON {
  j_id : option Z;
  j_type : option string;
  j_source : option string;
  j_meta : option string;
  j_created_at : option time.Time;
  j_email : option string;
  j_subscriber_uuid : option string;
  j_campaign_id : option Z
}.

Definition orZero {A} (z : A) (o : option A) : A :=
  match o with Some a => a | None => z end.

(** [json.Unmarshal] into [var b models.Bounce]: a field the object lacks
    keeps Go's zero value. *)
Definition unmarshalBounce (j : BounceJSON) : Bounce :=
  {| ID := orZero 0 (j_id j);
     Type_ := orZero "" (j_type j);
     Source := orZero "" (j_source j);
     Meta := orZero "" (j_meta j);
     CreatedAt := orZero time.zero (j_created_at j);
     Email := orZero "" (j_email j);
     SubscriberUUID := orZero "" (j_subscriber_uuid j);
     CampaignID := j_campaign_id j;
     Total := 0 |}.

(** An [echo.Context] as the handlers read it: path parameters, query and
    form values ([url.Values]), request headers under their canonical names,
    and the outcome of reading the request body ([inl] when
    [ioutil.ReadAll] fails). *)
Record Context := mkContext {
  Params : list (string * string);
  Query : list (string * list string);
  Form : list (string * list string);
  Header : list (string * list string);
  Body : Err + string
}.

Fixpoint lookup {V} (k : string) (l : list (string * V)) : option V :=
  match l with
  | [] => None
  | (k', v) :: rest => if String.eqb k k' then Some v else lookup k rest
  end.

Definition Param (c : Context) (name : string) : string :=
  orZero "" (lookup name (Params c)).

Definition values_Get (vs : list (string * list string)) (name : string) : string :=
  match lookup name vs with
  | Some (v :: _) => v
  | _ => ""
  end.

Definition values_All (vs : list (string * list string)) (name : string) : list string :=
  orZero [] (lookup name vs).

Definition QueryParam (c : Context) := values_Get (Query c).
Definition FormValue (c : Context) := values_Get (Form c).
Definition Header_Get (c : Context) := values_Get (Header c).

(** i18n messages are kept symbolic: the key and the parameters given. *)
Inductive Msg :=
| T (key : string)
| Ts (key : string) (params : list string).

Definition msgKey (m : Msg) : string :=
  match m with T k => k | Ts k _ => k end.

Record HTTPError := NewHTTPError { code : Z; message : Msg }.

Definition StatusOK : Z := 200.
Definition StatusBadRequest : Z := 400.
Definition StatusInternalServerError : Z := 500.

Record bouncesWrap := mkWrap {
  Results : list Bounce;
  WTotal : Z;
  PerPage : Z;
  Page : Z
}.

(** [okResp{...}] with the values the handlers put in it. *)
Inductive okResp :=
| okTrue
| okBounce (b : Bounce)
| okBounces (bs : list Bounce)
| okWrap (w : bouncesWrap).

Inductive Response := JSON (status : Z) (data : okResp).

(** A [fmt.Sprintf] of the two sort parameters into a query template, kept
    symbolic: the template and the values interpolated into it. *)
Inductive Formatted := Sprintf (template : string) (args : list string).

Inductive Arg := AInt (z : Z) | AStr (s : string).

Record Pagination := mkPagination {
  pgPerPage : Z;
  pgPage : Z;
  pgOffset : Z;
  pgLimit : Z
}.

(** What a handler does to the outside, in the order it does it. *)
Inductive Event :=
| EvLog (format : string) (err : Err)
| EvSESSubscription (raw : string)
| EvSESBounce (raw : string)
| EvSendgridBounce (sig ts raw : string)
| EvRecord (b : Bounce)
| EvNow
| EvSelect (stmt : Formatted) (args : list Arg)
| EvDelete (ids : list Z).

(** The bounces handed to the Recorder, in call order. *)
Fixpoint recorded (t : list Event) : list Bounce :=
  match t with
  | [] => []
  | EvRecord b :: rest => b :: recorded rest
  | _ :: rest => recorded rest
  end.

Definition isAdapterCall (e : Event) : bool :=
  match e with
  | EvSESSubscription _ | EvSESBounce _ | EvSendgridBounce _ _ _ => true
  | _ => false
  end.

(** The error taxonomy of the specification, read off a response: a server
    error is an upstream failure, the unknown-service message is its own
    class, every other client error is invalid input. *)
Inductive ErrorClass := InvalidInput | UnknownService | UpstreamFailure.

Definition classify (e : HTTPError) : option ErrorClass :=
  if code e =? StatusInternalServerError then Some UpstreamFailure
  else if code e =? StatusBadRequest then
    if String.eqb (msgKey (message e)) "bounces.unknownService"
    then Some UnknownService else Some InvalidInput
  else None.

(** ** The handler monad

    A handler runs against the outside world [World] (database, network,
    clock).  It ends with a value or with the [echo.HTTPError] it returns
    early, and leaves the trace of what it did. *)
Definition M (World A : Type) : Type :=
  World -> (HTTPError + A) * list Event * World.

Definition ret {World A} (a : A) : M World A :=
  fun w => (inr a, [], w).

Definition throw {World A} (e : HTTPError) : M World A :=
  fun w => (inl e, [], w).

Definition bind {World A B} (m : M World A) (k : A -> M World B) : M World B :=
  fun w =>
    match m w with
    | (inl e, t, w') => (inl e, t, w')
    | (inr a, t, w') =>
        match k a w' with
        | (r, t', w'') => (r, (t ++ t')%list, w'')
        end
    end.

(** A call to a collaborator: it is noted in the trace and may change the
    world. *)
Definition call {World A} (ev : Event) (f : World -> A * World) : M World A :=
  fun w => match f w with (a, w') => (inr a, [ev], w') end.

Definition log_Printf {World} (format : string) (err : Err) : M World unit :=
  fun w => (inr tt, [EvLog format err], w).

Declare Scope handler_scope.
Delimit Scope handler_scope with handler.
Notation "x <- m ;; k" := (bind m (fun x => k))
  (at level 61, m at next level, right associativity) : handler_scope.
Notation "m ;;; k" := (bind m (fun _ => k))
  (at level 61, right associativity) : handler_scope.
Open Scope handler_scope.

Definition outcome {World A} (r : (HTTPError + A) * list Event * World) : HTTPError + A :=
  fst (fst r).
Definition trace {World A} (r : (HTTPError + A) * list Event * World) : list Event :=
  snd (fst r).
Definition world {World A} (r : (HTTPError + A) * list Event * World) : World :=
  snd r.

(** ** The application *)

Record Constants := mkConstants {
  BounceSESEnabled : bool;
  BounceSendgridEnabled : bool
}.

(** [*App] as the handlers use it: the feature flags, the query template,
    and the collaborators ([app.bounce.SES], [app.bounce.Sendgrid],
    [app.bounce.Record], the prepared delete statement, [db.Select] and the
    clock), each a function on the world. *)
Record App (World : Type) := mkApp {
  constants : Constants;
  QueryBounces : string;
  SES_ProcessSubscription : string -> World -> option Err * World;
  SES_ProcessBounce : string -> World -> (Err + Bounce) * World;
  Sendgrid_ProcessBounce : string -> string -> string -> World -> (Err + list Bounce) * World;
  bounce_Record : Bounce -> World -> option Err * World;
  DeleteBounces_Exec : list Z -> World -> option Err * World;
  db_Select : Formatted -> list Arg -> World -> (Err + list Bounce) * World;
  time_Now : World -> time.Time * World
}.

Arguments constants {World}.
Arguments QueryBounces {World}.
Arguments SES_ProcessSubscription {World}.
Arguments SES_ProcessBounce {World}.
Arguments Sendgrid_ProcessBounce {World}.
Arguments bounce_Record {World}.
Arguments DeleteBounces_Exec {World}.
Arguments db_Select {World}.
Arguments time_Now {World}.

(** Modelled from the spec: [strSliceContains] is defined outside
    [cmd/bounce.go]; it is membership of the requested field in the
    allow-list. *)
Definition strSliceContains (str : string) (sl : list string) : bool :=
  existsb (String.eqb str) sl.

(** Modelled from the spec: [bounceQuerySortFields] is declared outside
    [cmd/bounce.go].  The specification has the list sortable by a fixed
    allow-list of fields, with a default field, [created_at], taken when the
    requested one is not on the list, so that no unvalidated identifier is
    passed into the query: the default is itself one of the fields of the
    list.  The specification does not name the other fields; they are left
    open. *)
Definition bounceQuerySortFields_model (others : list string) : list string :=
  (others ++ ["created_at"])%list.

Section Handlers.

(** Helpers and constants of the repository and of Go's library that
    [cmd/bounce.go] uses and does not define. *)
Variable IsEmail : string -> bool.
Variable reUUID_MatchString : string -> bool.
Variable strings_ToLower : string -> string.
Variable json_Decode : string -> option BounceJSON.
Variable parseStringIDs : list string -> Err + list Z.
Variable getPagination : list (string * list string) -> Z -> Z -> Pagination.
Variable pqErrMsg : Err -> string.
Variable bounceQuerySortFields : list string.
Variables sortAsc sortDesc : string.

Variable World : Type.
Variable app : App World.

(** [json.Unmarshal(rawReq, &b)] on a fresh [models.Bounce]. *)
Definition json_Unmarshal (raw : string) : option Bounce :=
  option_map unmarshalBounce (json_Decode raw).

(** [validateBounceFields]: [None] is Go's [nil]. *)
Definition validateBounceFields (b : Bounce) : option HTTPError :=
  if String.eqb (Email b) "" && String.eqb (SubscriberUUID b) "" then
    Some (NewHTTPError StatusBadRequest (T "globals.messages.invalidData"))
  else if negb (String.eqb (Email b) "") && negb (IsEmail (Email b)) then
    Some (NewHTTPError StatusBadRequest (T "globals.messages.invalidEmail"))
  else if negb (String.eqb (SubscriberUUID b) "") && negb (reUUID_MatchString (SubscriberUUID b)) then
    Some (NewHTTPError StatusBadRequest (T "globals.messages.invalidUUID"))
  else None.

(** The three assignments of the native branch after validation. *)
Definition nativeDefaults (b : Bounce) : M World Bounce :=
  let b1 := {| ID := ID b; Type_ := Type_ b; Source := Source b; Meta := Meta b;
               CreatedAt := CreatedAt b; Email := strings_ToLower (Email b);
               SubscriberUUID := SubscriberUUID b; CampaignID := CampaignID b;
               Total := Total b |} in
  let b2 := if Nat.eqb (String.length (Meta b1)) 0
            then {| ID := ID b1; Type_ := Type_ b1; Source := Source b1; Meta := "{}";
                    CreatedAt := CreatedAt b1; Email := Email b1;
                    SubscriberUUID := SubscriberUUID b1; CampaignID := CampaignID b1;
                    Total := Total b1 |}
            else b1 in
  if time.Year (CreatedAt b2) =? 0 then
    now <- call EvNow (time_Now app) ;;
    ret {| ID := ID b2; Type_ := Type_ b2; Source := Source b2; Meta := Meta b2;
           CreatedAt := now; Email := Email b2;
           SubscriberUUID := SubscriberUUID b2; CampaignID := CampaignID b2;
           Total := Total b2 |}
  else ret b2.

Definition invalidData : HTTPError :=
  NewHTTPError StatusBadRequest (T "globals.messages.invalidData").

(** [handleBounceWebhook] up to the end of its outer [switch]: the bounces
    the call yields, or the error it returns early. *)
Definition webhookBounces (c : Context) : M World (list Bounce) :=
  let service := Param c "service" in
  match Body c with
  | inl err =>
      log_Printf "error reading ses notification body: %v" err ;;;
      throw (NewHTTPError StatusBadRequest (Ts "globals.messages.internalError" []))
  | inr rawReq =>
      if String.eqb service "" then
        match json_Unmarshal rawReq with
        | None => throw (NewHTTPError StatusBadRequest (Ts "globals.messages.invalidData" []))
        | Some b =>
            match validateBounceFields b with
            | Some err => throw err
            | None => b' <- nativeDefaults b ;; ret [b']
            end
        end
      else if String.eqb service "ses" && BounceSESEnabled (constants app) then
        let mt := Header_Get c "X-Amz-Sns-Message-Type" in
        if String.eqb mt "SubscriptionConfirmation" || String.eqb mt "UnsubscribeConfirmation" then
          r <- call (EvSESSubscription rawReq) (SES_ProcessSubscription app rawReq) ;;
          match r with
          | Some err =>
              log_Printf "error processing SNS (SES) subscription: %v" err ;;;
              throw invalidData
          | None => ret []
          end
        else if String.eqb mt "Notification" then
          r <- call (EvSESBounce rawReq) (SES_ProcessBounce app rawReq) ;;
          match r with
          | inl err =>
              log_Printf "error processing SES notification: %v" err ;;;
              throw invalidData
          | inr b => ret [b]
          end
        else throw invalidData
      else if String.eqb service "sendgrid" && BounceSendgridEnabled (constants app) then
        let sig := Header_Get c "X-Twilio-Email-Event-Webhook-Signature" in
        let ts := Header_Get c "X-Twilio-Email-Event-Webhook-Timestamp" in
        r <- call (EvSendgridBounce sig ts rawReq) (Sendgrid_ProcessBounce app sig ts rawReq) ;;
        match r with
        | inl err =>
            log_Printf "error processing sendgrid notification: %v" err ;;;
            throw invalidData
        | inr bs => ret bs
        end
      else throw (NewHTTPError StatusBadRequest (Ts "bounces.unknownService" []))
  end.

(** The recording loop: [for _, b := range bounces]. *)
Fixpoint recordBounces (bounces : list Bounce) : M World unit :=
  match bounces with
  | [] => ret tt
  | b :: rest =>
      r <- call (EvRecord b) (bounce_Record app b) ;;
      match r with
      | Some err => log_Printf "error recording bounce: %v" err
      | None => ret tt
      end ;;;
      recordBounces rest
  end.

Definition handleBounceWebhook (c : Context) : M World Response :=
  bounces <- webhookBounces c ;;
  recordBounces bounces ;;;
  ret (JSON StatusOK okTrue).

Definition invalidID : HTTPError :=
  NewHTTPError StatusBadRequest (T "globals.messages.invalidID").

(** [handleDeleteBounces] up to the delete statement: the id array it
    assembles, or the error it returns early. *)
Definition deleteIDs (c : Context) : HTTPError + list Z :=
  let pID := Param c "id" in
  let all := fst (strconv.ParseBool (QueryParam c "all")) in
  if negb (String.eqb pID "") then
    let id := fst (strconv.ParseInt pID) in
    if id <? 1 then inl invalidID else inr ([] ++ [id])%list
  else if negb all then
    match parseStringIDs (values_All (Query c) "id") with
    | inl err =>
        inl (NewHTTPError StatusBadRequest (Ts "globals.messages.invalidID" ["error"; err]))
    | inr i =>
        if Nat.eqb (List.length i) 0
        then inl (NewHTTPError StatusBadRequest (Ts "globals.messages.invalidID" []))
        else inr i
    end
  else inr [].

Definition handleDeleteBounces (c : Context) : M World Response :=
  match deleteIDs c with
  | inl e => throw e
  | inr IDs =>
      r <- call (EvDelete IDs) (DeleteBounces_Exec app IDs) ;;
      match r with
      | Some err =>
          log_Printf "error deleting bounces: %v" err ;;;
          throw (NewHTTPError StatusInternalServerError
                   (Ts "globals.messages.errorDeleting"
                       ["name"; "{globals.terms.bounce}"; "error"; pqErrMsg err]))
      | None => ret (JSON StatusOK okTrue)
      end
  end.

Definition errorFetching (err : Err) : HTTPError :=
  NewHTTPError StatusInternalServerError
    (Ts "globals.messages.errorFetching"
        ["name"; "{globals.terms.bounce}"; "error"; pqErrMsg err]).

(** The two sort parameters of [handleGetBounces] after its checks. *)
Definition sortOrderBy (orderBy : string) : string :=
  if negb (strSliceContains orderBy bounceQuerySortFields) then "created_at" else orderBy.

Definition sortOrder (order : string) : string :=
  if negb (String.eqb order sortAsc) && negb (String.eqb order sortDesc)
  then sortDesc else order.

Definition handleGetBounces (c : Context) : M World Response :=
  let pg := getPagination (Query c) 20 50 in
  let id := fst (strconv.Atoi (Param c "id")) in
  let campID := fst (strconv.Atoi (QueryParam c "campaign_id")) in
  let source := FormValue c "source" in
  let orderBy := FormValue c "order_by" in
  let order := FormValue c "order" in
  let single := 0 <? id in
  let orderBy := sortOrderBy orderBy in
  let order := sortOrder order in
  let stmt := Sprintf (QueryBounces app) [orderBy; order] in
  let args := [AInt id; AInt campID; AInt 0; AStr source;
               AInt (pgOffset pg); AInt (pgLimit pg)] in
  r <- call (EvSelect stmt args) (db_Select app stmt args) ;;
  match r with
  | inl err =>
      log_Printf "error fetching bounces: %v" err ;;;
      throw (errorFetching err)
  | inr [] => ret (JSON StatusOK (okWrap (mkWrap [] 0 0 0)))
  | inr (r0 :: rest) =>
      if single then ret (JSON StatusOK (okBounce r0))
      else ret (JSON StatusOK
                  (okWrap (mkWrap (r0 :: rest) (Total r0) (pgPerPage pg) (pgPage pg))))
  end.

Definition handleGetSubscriberBounces (c : Context) : M World Response :=
  let subID := Param c "id" in
  let id := fst (strconv.ParseInt subID) in
  if id <? 1 then throw invalidID
  else
    let stmt := Sprintf (QueryBounces app) ["created_at"; "ASC"] in
    let args := [AInt 0; AInt 0; AStr subID; AStr ""; AInt 0; AInt 1000] in
    r <- call (EvSelect stmt args) (db_Select app stmt args) ;;
    match r with
    | inl err =>
        log_Printf "error fetching bounces: %v" err ;;;
        throw (errorFetching err)
    | inr out => ret (JSON StatusOK (okBounces out))
    end.

End Handlers.

Arguments validateBounceFields IsEmail reUUID_MatchString b : assert.

(** The rules of the Validator in the words of the specification, as a
    relation between a record and the verdict: rule 1 fails a record with
    both fields empty; otherwise rule 2 fails a non-empty invalid address;
    otherwise rule 3 fails a non-empty UUID off the pattern; otherwise there
    is no error. *)
Inductive ValidatorRules (IsEmail reUUID_MatchString : string -> bool) (b : Bounce)
  : option HTTPError -> Prop :=
| Rule1 :
    Email b = "" -> SubscriberUUID b = "" ->
    ValidatorRules IsEmail reUUID_MatchString b (Some (NewHTTPError StatusBadRequest (T "globals.messages.invalidData")))
| Rule2 :
    ~ (Email b = "" /\ SubscriberUUID b = "") ->
    Email b <> "" -> IsEmail (Email b) = false ->
    ValidatorRules IsEmail reUUID_MatchString b (Some (NewHTTPError StatusBadRequest (T "globals.messages.invalidEmail")))
| Rule3 :
    ~ (Email b = "" /\ SubscriberUUID b = "") ->
    ~ (Email b <> "" /\ IsEmail (Email b) = false) ->
    SubscriberUUID b <> "" -> reUUID_MatchString (SubscriberUUID b) = false ->
    ValidatorRules IsEmail reUUID_MatchString b (Some (NewHTTPError StatusBadRequest (T "globals.messages.invalidUUID")))
| RuleOK :
    ~ (Email b = "" /\ SubscriberUUID b = "") ->
    ~ (Email b <> "" /\ IsEmail (Email b) = false) ->
    ~ (SubscriberUUID b <> "" /\ reUUID_MatchString (SubscriberUUID b) = false) ->
    ValidatorRules IsEmail reUUID_MatchString b None.

(** What the native path hands to the Recorder for a parsed record [b],
    when the clock reads [now]. *)
Definition nativeRecord (strings_ToLower : string -> string) (now : time.Time) (b : Bounce) : Bounce :=
  mkBounce (ID b) (Type_ b) (Source b)
           (if Nat.eqb (String.length (Meta b)) 0 then "{}" else Meta b)
           (if time.Year (CreatedAt b) =? 0 then now else CreatedAt b)
           (strings_ToLower (Email b)) (SubscriberUUID b) (CampaignID b) (Total b).

(** ** Parts of the repository outside [cmd/bounce.go], from the specification *)

(** Modelled from the spec: [parseStringIDs] is defined outside
    [cmd/bounce.go].  The ids of the explicit id set are parsed one by one,
    in order; the call fails at the first id that is unparseable or
    non-positive, and otherwise returns the parsed ids. *)
Fixpoint parseStringIDs_model (s : list string) : Err + list Z :=
  match s with
  | [] => inr []
  | v :: rest =>
      match strconv.ParseInt v with
      | (_, Some _) => inl "invalid syntax"
      | (i, None) =>
          if i <? 1 then inl "not a valid ID"
          else match parseStringIDs_model rest with
               | inl e => inl e
               | inr vals => inr (i :: vals)
               end
      end
  end.

(** An id of the explicit id set that is unparseable or non-positive. *)
Definition badID (v : string) : bool :=
  match strconv.ParseInt v with
  | (_, Some _) => true
  | (i, None) => i <? 1
  end.

Definition isHex (c : ascii) : bool :=
  let n := nat_of_ascii c in
  ((48 <=? n) && (n <=? 57) || (65 <=? n) && (n <=? 70) || (97 <=? n) && (n <=? 102))%nat.

Fixpoint matchGroups (groups : list nat) (s : list ascii) : bool :=
  match groups with
  | [] => match s with [] => true | _ => false end
  | g :: rest =>
      forallb isHex (firstn g s) && Nat.eqb (List.length (firstn g s)) g &&
      match rest, skipn g s with
      | [], [] => true
      | _ :: _, c :: s' => Ascii.eqb c "-" && matchGroups rest s'
      | _, _ => false
      end
  end.

(** Modelled from the spec: the pattern [reUUID] is declared outside
    [cmd/bounce.go]; the canonical UUID textual pattern is five groups of
    8, 4, 4, 4 and 12 hexadecimal digits separated by hyphens. *)
Definition reUUID_model (s : string) : bool :=
  matchGroups [8; 4; 4; 4; 12]%nat (list_ascii_of_string s).

Definition isSpace (c : ascii) : bool := (nat_of_ascii c <=? 32)%nat.

Fixpoint splitAt (s : list ascii) : option (list ascii * list ascii) :=
  match s with
  | [] => None
  | c :: rest =>
      if Ascii.eqb c "@" then Some ([], rest)
      else match splitAt rest with
           | Some (l, d) => Some (c :: l, d)
           | None => None
           end
  end.

(** Modelled from the spec: [subimporter.IsEmail] is defined outside
    [cmd/bounce.go]; a syntactically valid address is read as a non-empty
    local part, one [@] and a non-empty domain, with no blank in either. *)
Definition IsEmail_model (s : string) : bool :=
  match splitAt (list_ascii_of_string s) with
  | Some (l, d) =>
      negb (Nat.eqb (List.length l) 0) && negb (Nat.eqb (List.length d) 0) &&
      forallb (fun c => negb (isSpace c)) l &&
      forallb (fun c => negb (isSpace c) && negb (Ascii.eqb c "@")) d
  | None => false
  end.

(** [strings.ToLower] on the ASCII letters; other bytes are kept. *)
Definition lowerAscii (c : ascii) : ascii :=
  let n := nat_of_ascii c in
  if ((65 <=? n) && (n <=? 90))%nat then ascii_of_nat (n + 32) else c.

Fixpoint ToLower_ascii (s : string) : string :=
  match s with
  | EmptyString => EmptyString
  | String c rest => String (lowerAscii c) (ToLower_ascii rest)
  end.

Section SendgridAdapter.

(** The signature check over a payload with the pre-shared key, the bounce
    events a body bundles (in payload order, [None] for a malformed body)
    and the record built from one event. *)
Variable SGEvent : Type.
Variable verifySignature : string -> string -> string -> bool.
Variable key : string.
Variable bounceEvents : string -> option (list SGEvent).
Variable toBounce : SGEvent -> Bounce.

(** Modelled from the spec: [Sendgrid.ProcessBounce] is defined outside
    [cmd/bounce.go].  The signature is verified over (timestamp + raw body)
    before the payload is trusted; on failure the call fails; otherwise all
    the bounce events of the payload are returned, in payload order. *)
Definition Sendgrid_ProcessBounce_model (sig ts raw : string) : Err + list Bounce :=
  if verifySignature key sig (ts ++ raw) then
    match bounceEvents raw with
    | Some evs => inr (map toBounce evs)
    | None => inl "malformed payload"
    end
  else inl "invalid signature".

End SendgridAdapter.

(** ** A concrete application, to run the handlers on *)
Module Fixture.

(** The world is the bounce table and a clock. *)
Record World := mkWorld { table : list Bounce; clock : time.Time }.

Definition t2021 : time.Time := time.mkTime 63745056000 0 0.

Definition w0 : World := mkWorld [] t2021.

(** A recorder that refuses the bounces of type [reject] and stores the
    others. *)
Definition Record_ (b : Bounce) (w : World) : option Err * World :=
  if String.eqb (Type_ b) "reject" then (Some "insert failed", w)
  else (None, mkWorld (table w ++ [b])%list (clock w)).

Definition blank : Bounce := unmarshalBounce (mkBounceJSON None None None None None None None None).

Definition withEmail (e : string) (ty : string) : Bounce :=
  mkBounce 0 ty "sendgrid" "{}" t2021 e "" None 0.

Definition sesBounce : Bounce := mkBounce 0 "hard" "ses" "{}" t2021 "user@example.com" "" None 0.

(** Sendgrid events are addresses paired with a bounce type; the key is
    [k] and a signature verifies when it is the payload after the key. *)
Definition verify (key sig payload : string) : bool := String.eqb sig (key ++ payload).

Definition events (raw : string) : option (list (string * string)) :=
  if String.eqb raw "three" then
    Some [("a@example.com", "hard"); ("b@example.com", "reject"); ("c@example.com", "soft")]
  else if String.eqb raw "none" then Some []
  else None.

Definition sendgrid := Sendgrid_ProcessBounce_model (string * string) verify "k" events
                         (fun ev => withEmail (fst ev) (snd ev)).

Definition app (ses sg : bool) : App World :=
  {| constants := mkConstants ses sg;
     QueryBounces := "SELECT * FROM bounces ORDER BY %s %s";
     SES_ProcessSubscription := fun raw w =>
       (if String.eqb raw "confirm" then None else Some "bad subscription", w);
     SES_ProcessBounce := fun raw w =>
       (if String.eqb raw "notification" then inr sesBounce else inl "bad envelope", w);
     Sendgrid_ProcessBounce := fun sig ts raw w => (sendgrid sig ts raw, w);
     bounce_Record := Record_;
     DeleteBounces_Exec := fun ids w =>
       (None, mkWorld (filter (fun b => match ids with
                                        | [] => false
                                        | _ => negb (existsb (Z.eqb (ID b)) ids)
                                        end) (table w)) (clock w));
     db_Select := fun _ _ w => (inr (table w), w);
     time_Now := fun w => (clock w, w) |}.

(** The native payloads used below, and a decoder that knows them.
    [bodyMixed] is the object with the one field [email], a mixed-case
    address; [bodyBoth] carries an address and a subscriber UUID. *)
Definition q : string := String (ascii_of_nat 34) EmptyString.

Definition field (name value : string) : string :=
  (q ++ name ++ q ++ ":" ++ q ++ value ++ q)%string.

Definition bodyMixed : string := ("{" ++ field "email" "User@Example.COM" ++ "}")%string.

Definition bodyBoth : string :=
  ("{" ++ field "email" "user@example.com" ++ "," ++
   field "subscriber_uuid" "123e4567-e89b-42d3-a456-426614174000" ++ "}")%string.

Definition jsonMixed : BounceJSON :=
  mkBounceJSON None None None None None (Some "User@Example.COM") None None.

Definition jsonBoth : BounceJSON :=
  mkBounceJSON None None None None None (Some "user@example.com")
               (Some "123e4567-e89b-42d3-a456-426614174000") None.

Definition decode (raw : string) : option BounceJSON :=
  if String.eqb raw bodyMixed then Some jsonMixed
  else if String.eqb raw bodyBoth then Some jsonBoth
  else None.

Definition getPagination (q : list (string * list string)) (perPage maxPerPage : Z) : Pagination :=
  mkPagination perPage 1 0 perPage.

Definition sortFields : list string := ["email"; "campaign_name"; "source"; "created_at"].

Definition webhook (ses sg : bool) :=
  handleBounceWebhook IsEmail_model reUUID_model ToLower_ascii decode World (app ses sg).

Definition request (service : string) (headers : list (string * list string))
           (body : Err + string) : Context :=
  mkContext [("service", service)] [] [] headers body.

(** The calls the handlers are run on below. *)
Definition both : Bounce := unmarshalBounce jsonBoth.

Definition sgHeaders (sig : string) : list (string * list string) :=
  [("X-Twilio-Email-Event-Webhook-Signature", [sig]);
   ("X-Twilio-Email-Event-Webhook-Timestamp", ["1"])].

Definition threeSigned : Context := request "sendgrid" (sgHeaders "k1three") (inr "three").


Definition three : list Bounce :=
  [withEmail "a@example.com" "hard"; withEmail "b@example.com" "reject";
   withEmail "c@example.com" "soft"].

Definition snsHeader (mt : string) : list (string * list string) :=
  [("X-Amz-Sns-Message-Type", [mt])].

Definition nativeMixed : Context := request "" [] (inr bodyMixed).

Definition deleteCall (pathID : list (string * string)) (query : list (string * list string))
  : Context := mkContext pathID query [] [] (inr "").

Definition allWithBadID : Context := deleteCall [] [("all", ["true"]); ("id", ["abc"])].

Definition listCall (orderBy order : string) : Context :=
  mkContext [] [] [("order_by", [orderBy]); ("order", [order])] [] (inr "").

End Fixture.

(** ** Reading a trace *)

Definition isRecord (e : Event) : bool :=
  match e with EvRecord _ => true | _ => false end.

Definition isLog (e : Event) : bool :=
  match e with EvLog _ _ => true | _ => false end.

Definition isSelect (e : Event) : bool :=
  match e with EvSelect _ _ => true | _ => false end.

Definition isDelete (e : Event) : bool :=
  match e with EvDelete _ => true | _ => false end.

Definition isClock (e : Event) : bool :=
  match e with EvNow => true | _ => false end.

(** The application under other feature flags. *)
Definition withConstants {World} (k : Constants) (app : App World) : App World :=
  {| constants := k;
     QueryBounces := QueryBounces app;
     SES_ProcessSubscription := SES_ProcessSubscription app;
     SES_ProcessBounce := SES_ProcessBounce app;
     Sendgrid_ProcessBounce := Sendgrid_ProcessBounce app;
     bounce_Record := bounce_Record app;
     DeleteBounces_Exec := DeleteBounces_Exec app;
     db_Select := db_Select app;
     time_Now := time_Now app |}.

(** The statement and the arguments [handleGetBounces] gives to
    [db.Select] (lines 30-55). *)
Definition listStmt (bounceQuerySortFields : list string) (sortAsc sortDesc : string)
           (template : string) (c : Context) : Formatted :=
  Sprintf template [sortOrderBy bounceQuerySortFields (FormValue c "order_by");
                    sortOrder sortAsc sortDesc (FormValue c "order")].

Definition listArgs (getPagination : list (string * list string) -> Z -> Z -> Pagination)
           (c : Context) : list Arg :=
  [AInt (fst (strconv.Atoi (Param c "id")));
   AInt (fst (strconv.Atoi (QueryParam c "campaign_id")));
   AInt 0;
   AStr (FormValue c "source");
   AInt (pgOffset (getPagination (Query c) 20 50));
   AInt (pgLimit (getPagination (Query c) 20 50))].

(** The statement and the arguments of [handleGetSubscriberBounces]
    (lines 91-92). *)
Definition subscriberStmt (template : string) : Formatted :=
  Sprintf template ["created_at"; "ASC"].

Definition subscriberArgs (subID : string) : list Arg :=
  [AInt 0; AInt 0; AStr subID; AStr ""; AInt 0; AInt 1000].

Definition errorDeleting (pqErrMsg : Err -> string) (err : Err) : HTTPError :=
  NewHTTPError StatusInternalServerError
    (Ts "globals.messages.errorDeleting"
        ["name"; "{globals.terms.bounce}"; "error"; pqErrMsg err]).

(** The spellings [strconv.ParseBool] reads as true. *)
Definition trueSpellings : list string := ["1"; "t"; "T"; "TRUE"; "true"; "True"].

(** The concrete application with its database down: every query and
    every insert fails, and one bounce sits in no table. *)
Module Outage.

Definition down : Err := "connection refused".

Definition app : App Fixture.World :=
  {| constants := mkConstants true true;
     QueryBounces := "SELECT * FROM bounces ORDER BY %s %s";
     SES_ProcessSubscription := fun raw w => (Some "confirmation request failed", w);
     SES_ProcessBounce := fun raw w => (inl "bad envelope", w);
     Sendgrid_ProcessBounce := fun sig ts raw w => (inl "invalid signature", w);
     bounce_Record := fun b w => (Some down, w);
     DeleteBounces_Exec := fun ids w => (Some down, w);
     db_Select := fun _ _ w => (inl down, w);
     time_Now := fun w => (Fixture.clock w, w) |}.

Definition webhook :=
  handleBounceWebhook IsEmail_model reUUID_model ToLower_ascii Fixture.decode
                      Fixture.World app.

End Outage.

(** More calls and worlds to run the handlers on. *)
Module Cases.

Import Fixture.

(** A native body whose address has no [@], and one dated on the last
    second of year zero. *)
Definition bodyBadEmail : string := ("{" ++ field "email" "nobody" ++ "}")%string.

Definition bodyYearZero : string :=
  ("{" ++ field "email" "user@example.com" ++ "," ++
   field "created_at" "0000-12-31T23:59:59Z" ++ "}")%string.

Definition jsonBadEmail : BounceJSON :=
  mkBounceJSON None None None None None (Some "nobody") None None.

Definition jsonYearZero : BounceJSON :=
  mkBounceJSON None None None None (Some (time.mkTime (-1) 0 0))
               (Some "user@example.com") None None.

Definition decode (raw : string) : option BounceJSON :=
  if String.eqb raw bodyBadEmail then Some jsonBadEmail
  else if String.eqb raw bodyYearZero then Some jsonYearZero
  else Fixture.decode raw.

Definition webhook (ses sg : bool) :=
  handleBounceWebhook IsEmail_model reUUID_model ToLower_ascii decode World (app ses sg).

(** The application with a Recorder that stores every bounce. *)
Definition storing : App World :=
  {| constants := mkConstants true true;
     QueryBounces := QueryBounces (app true true);
     SES_ProcessSubscription := SES_ProcessSubscription (app true true);
     SES_ProcessBounce := SES_ProcessBounce (app true true);
     Sendgrid_ProcessBounce := Sendgrid_ProcessBounce (app true true);
     bounce_Record := fun b w => (None, mkWorld (table w ++ [b])%list (clock w));
     DeleteBounces_Exec := DeleteBounces_Exec (app true true);
     db_Select := db_Select (app true true);
     time_Now := time_Now (app true true) |}.

(** A world whose table holds the three bounces of the batch, the first
    row carrying the total the query computes. *)
Definition firstRow : Bounce :=
  mkBounce 1 "hard" "sendgrid" "{}" t2021 "a@example.com" "" None 3.

Definition w3 : World := mkWorld (firstRow :: tl three) t2021.

Definition listById (id : string) : Context :=
  mkContext [("id", id)] [("page", ["2"])] [("order_by", ["email"]); ("order", ["asc"])]
            [] (inr "").

Definition list_ :=
  handleGetBounces getPagination (fun e : Err => e) sortFields "asc" "desc" World.

Definition subscriber := handleGetSubscriberBounces (fun e : Err => e) World.

Definition delete := handleDeleteBounces parseStringIDs_model (fun e : Err => e) World.

Definition subscriberCall (id : string) (form : list (string * list string)) : Context :=
  mkContext [("id", id)] [] form [] (inr "").

End Cases.

(** * Properties *)

(** ** The library models at a few inputs *)

Example ParseInt_42 : strconv.ParseInt "42" = (42, None).
Proof. reflexivity. Qed.

Example ParseInt_neg : strconv.ParseInt "-7" = (-7, None).
Proof. reflexivity. Qed.

Example ParseInt_syntax : strconv.ParseInt "12a" = (0, Some strconv.ErrSyntax).
Proof. reflexivity. Qed.

Example ParseInt_range :
  strconv.ParseInt "9223372036854775808" = (9223372036854775807, Some strconv.ErrRange).
Proof. reflexivity. Qed.

Example ParseInt_plus : strconv.ParseInt "+5" = (5, None).
Proof. reflexivity. Qed.

Example ParseInt_sign_only : strconv.ParseInt "-" = (0, Some strconv.ErrSyntax).
Proof. reflexivity. Qed.

Example ParseInt_min : strconv.ParseInt "-9223372036854775808" = (-9223372036854775808, None).
Proof. reflexivity. Qed.

Example ParseInt_below_min :
  strconv.ParseInt "-9223372036854775809" = (-9223372036854775808, Some strconv.ErrRange).
Proof. reflexivity. Qed.

Example ParseInt_overflow_before_letter :
  strconv.ParseInt "99999999999999999999x" = (9223372036854775807, Some strconv.ErrRange).
Proof. reflexivity. Qed.

Example ParseBool_true : strconv.ParseBool "true" = (true, None).
Proof. reflexivity. Qed.

Example ParseBool_yes : strconv.ParseBool "yes" = (false, Some strconv.ErrSyntax).
Proof. reflexivity. Qed.

Example Year_leap_day_2000 : time.Year (time.mkTime 63087379200 0 0) = 2000.
Proof. reflexivity. Qed.

Example Year_end_of_2000 : time.Year (time.mkTime 63113903999 0 0) = 2000.
Proof. reflexivity. Qed.

Example Year_start_of_2001 : time.Year (time.mkTime 63113904000 0 0) = 2001.
Proof. reflexivity. Qed.

Example Year_first_day_of_year_zero : time.Year (time.mkTime (-31622400) 0 0) = 0.
Proof. reflexivity. Qed.

Example Year_before_year_zero : time.Year (time.mkTime (-31622401) 0 0) = -1.
Proof. reflexivity. Qed.

Example Year_in_location : time.Year (time.mkTime 63113903999 0 3600) = 2001.
Proof. reflexivity. Qed.

Example Year_unix_epoch : time.Year (time.mkTime 62135596800 0 0) = 1970.
Proof. reflexivity. Qed.

Example Year_zero_value : time.Year time.zero = 1.
Proof. reflexivity. Qed.

Example Year_last_day_of_year_zero : time.Year (time.mkTime (-1) 0 0) = 0.
Proof. reflexivity. Qed.

Example reUUID_model_accepts : reUUID_model "123e4567-e89b-42d3-a456-426614174000" = true.
Proof. reflexivity. Qed.

Example reUUID_model_rejects_short : reUUID_model "123e4567-e89b-42d3-a456-42661417400" = false.
Proof. reflexivity. Qed.

Example IsEmail_model_accepts : IsEmail_model "user@example.com" = true.
Proof. reflexivity. Qed.

Example IsEmail_model_rejects : IsEmail_model "user.example.com" = false.
Proof. reflexivity. Qed.

(** ** The trace *)

Lemma recorded_app (t1 t2 : list Event) :
  recorded (t1 ++ t2) = (recorded t1 ++ recorded t2)%list.
Proof.
  induction t1 as [|e t1 IH]; simpl; [reflexivity|].
  destruct e; simpl; rewrite IH; reflexivity.
Qed.

Lemma String_eqb_false_neq (s1 s2 : string) : String.eqb s1 s2 = false <-> s1 <> s2.
Proof. apply String.eqb_neq. Qed.

Ltac run := unfold bind, ret, throw, call, log_Printf in *.

Section Validator.

Variable IsEmail : string -> bool.
Variable reUUID_MatchString : string -> bool.

Lemma validate_accepts_iff (b : Bounce) :
  validateBounceFields IsEmail reUUID_MatchString b = None <->
  (Email b <> "" \/ SubscriberUUID b <> "") /\
  (Email b <> "" -> IsEmail (Email b) = true) /\
  (SubscriberUUID b <> "" -> reUUID_MatchString (SubscriberUUID b) = true).
Proof.
  unfold validateBounceFields.
  destruct (String.eqb_spec (Email b) "") as [He|He];
    destruct (String.eqb_spec (SubscriberUUID b) "") as [Hu|Hu]; simpl;
    destruct (IsEmail (Email b)); simpl;
    destruct (reUUID_MatchString (SubscriberUUID b)); simpl;
    split; intros H; try discriminate; try reflexivity; intuition congruence.
Qed.

(** C1, as amended.  The Validator accepts a record only if at least one
    of [email] and [subscriberUUID] is non-empty; a record in which both are
    non-empty is accepted when the address is valid and the UUID matches. *)
Theorem validate_accepts_at_least_one (b : Bounce) :
  (validateBounceFields IsEmail reUUID_MatchString b = None -> Email b <> "" \/ SubscriberUUID b <> "") /\
  (Email b <> "" -> SubscriberUUID b <> "" ->
   IsEmail (Email b) = true -> reUUID_MatchString (SubscriberUUID b) = true ->
   validateBounceFields IsEmail reUUID_MatchString b = None).
Proof.
  split.
  - intros H. apply validate_accepts_iff in H. tauto.
  - intros He Hu Hie Hre. apply validate_accepts_iff. tauto.
Qed.

(** C7.  The Validator is a function of the record alone and applies the
    three rules in order: its verdict is the one the rules give, and the
    rules give no other. *)
Theorem validate_applies_rules_in_order (b : Bounce) :
  ValidatorRules IsEmail reUUID_MatchString b (validateBounceFields IsEmail reUUID_MatchString b) /\
  (forall v, ValidatorRules IsEmail reUUID_MatchString b v -> v = validateBounceFields IsEmail reUUID_MatchString b).
Proof.
  unfold validateBounceFields.
  destruct (String.eqb_spec (Email b) "") as [He|He];
    destruct (String.eqb_spec (SubscriberUUID b) "") as [Hu|Hu]; simpl.
  - split; [constructor; assumption|].
    intros v Hv; inversion Hv; subst; try reflexivity; tauto.
  - destruct (reUUID_MatchString (SubscriberUUID b)) eqn:Hre; simpl.
    + split; [constructor; intuition congruence|].
      intros v Hv; inversion Hv; subst; try reflexivity; try tauto; congruence.
    + split; [constructor; intuition congruence|].
      intros v Hv; inversion Hv; subst; try reflexivity; try tauto; congruence.
  - destruct (IsEmail (Email b)) eqn:Hie; simpl.
    + split; [constructor; intuition congruence|].
      intros v Hv; inversion Hv; subst; try reflexivity; try tauto; congruence.
    + split; [constructor; intuition congruence|].
      intros v Hv; inversion Hv; subst; try reflexivity; try tauto; congruence.
  - destruct (IsEmail (Email b)) eqn:Hie; simpl.
    + destruct (reUUID_MatchString (SubscriberUUID b)) eqn:Hre; simpl.
      * split; [constructor; intuition congruence|].
        intros v Hv; inversion Hv; subst; try reflexivity; try tauto; congruence.
      * split; [constructor; intuition congruence|].
        intros v Hv; inversion Hv; subst; try reflexivity; try tauto; congruence.
    + split; [constructor; intuition congruence|].
      intros v Hv; inversion Hv; subst; try reflexivity; try tauto; congruence.
Qed.

End Validator.

(** ** The webhook dispatcher *)

Section Webhook.

Variable IsEmail : string -> bool.
Variable reUUID_MatchString : string -> bool.
Variable strings_ToLower : string -> string.
Variable json_Decode : string -> option BounceJSON.
Variable World : Type.
Variable app : App World.

Local Abbreviation validate := (validateBounceFields IsEmail reUUID_MatchString).
Local Abbreviation defaults := (nativeDefaults strings_ToLower World app).
Local Abbreviation collect :=
  (webhookBounces IsEmail reUUID_MatchString strings_ToLower json_Decode World app).
Local Abbreviation handle :=
  (handleBounceWebhook IsEmail reUUID_MatchString strings_ToLower json_Decode World app).

(** The recording loop never fails, whatever the Recorder answers, and
    hands it exactly the bounces of the list, in order. *)
Lemma recordBounces_runs (bs : list Bounce) :
  forall w, exists t w',
    recordBounces World app bs w = (inr tt, t, w') /\
    recorded t = bs /\
    filter isAdapterCall t = [].
Proof.
  induction bs as [|b bs IH]; intros w; simpl.
  - exists [], w. repeat split.
  - run. destruct (bounce_Record app b w) as [r w1] eqn:Hr.
    destruct (IH w1) as (t & w' & Hrun & Hrec & Had).
    destruct r as [err|]; rewrite Hrun; simpl.
    + eexists; eexists; split; [reflexivity|]. simpl. rewrite Hrec, Had. split; reflexivity.
    + eexists; eexists; split; [reflexivity|]. simpl. rewrite Hrec, Had. split; reflexivity.
Qed.

(** The handler is the dispatch followed by the loop. *)
Lemma handle_after_collect (c : Context) (w : World) :
  handle c w =
  match collect c w with
  | (inl e, t, w1) => (inl e, t, w1)
  | (inr bs, t, w1) =>
      match recordBounces World app bs w1 with
      | (_, t2, w2) => (inr (JSON StatusOK okTrue), (t ++ t2)%list, w2)
      end
  end.
Proof.
  unfold handleBounceWebhook. run.
  destruct (webhookBounces _ _ _ _ _ _ c w) as [[[e|bs] t] w1]; [reflexivity|].
  destruct (recordBounces_runs bs w1) as (t2 & w2 & Hrun & _).
  rewrite Hrun. simpl. rewrite app_nil_r. reflexivity.
Qed.

Lemma defaults_run (b : Bounce) (w : World) :
  defaults b w =
  let meta := if Nat.eqb (String.length (Meta b)) 0 then "{}" else Meta b in
  if time.Year (CreatedAt b) =? 0 then
    (inr (mkBounce (ID b) (Type_ b) (Source b) meta (fst (time_Now app w))
                   (strings_ToLower (Email b)) (SubscriberUUID b) (CampaignID b) (Total b)),
     [EvNow], snd (time_Now app w))
  else
    (inr (mkBounce (ID b) (Type_ b) (Source b) meta (CreatedAt b)
                   (strings_ToLower (Email b)) (SubscriberUUID b) (CampaignID b) (Total b)),
     [], w).
Proof.
  unfold nativeDefaults. simpl.
  destruct (Nat.eqb (String.length (Meta b)) 0); simpl;
    destruct (time.Year (CreatedAt b) =? 0); run; simpl;
    try reflexivity; destruct (time_Now app w); reflexivity.
Qed.

(** The dispatch itself never calls the Recorder. *)
Lemma collect_records_nothing (c : Context) (w : World) :
  recorded (trace (collect c w)) = [].
Proof.
  unfold webhookBounces.
  destruct (Body c) as [err|raw]; [reflexivity|].
  destruct (String.eqb (Param c "service") "").
  - destruct (json_Unmarshal json_Decode raw) as [b|]; [|reflexivity].
    destruct (validateBounceFields _ _ b); [reflexivity|].
    run. rewrite defaults_run. simpl.
    destruct (time.Year (CreatedAt b) =? 0); reflexivity.
  - destruct (String.eqb (Param c "service") "ses" && BounceSESEnabled (constants app)).
    + destruct (_ || _).
      * run. destruct (SES_ProcessSubscription app raw w) as [[e|] w1]; reflexivity.
      * destruct (String.eqb _ "Notification"); [|reflexivity].
        run. destruct (SES_ProcessBounce app raw w) as [[e|b] w1]; reflexivity.
    + destruct (String.eqb (Param c "service") "sendgrid" && _); [|reflexivity].
      run. destruct (Sendgrid_ProcessBounce app _ _ raw w) as [[e|bs] w1]; reflexivity.
Qed.

(** After a dispatch that yields [bs], the handler runs the recording loop
    on [bs] and answers with success. *)
Lemma collect_then_record (c : Context) (w w1 : World)
        (bs : list Bounce) (t : list Event) :
  collect c w = (inr bs, t, w1) ->
  outcome (handle c w) = inr (JSON StatusOK okTrue) /\
  recorded (trace (handle c w)) = bs /\
  exists t2 w2,
    recordBounces World app bs w1 = (inr tt, t2, w2) /\
    recorded t2 = bs /\
    handle c w = (inr (JSON StatusOK okTrue), (t ++ t2)%list, w2).
Proof.
  intros Hc.
  pose proof (collect_records_nothing c w) as Hno.
  pose proof (handle_after_collect c w) as Hh.
  rewrite Hc in Hno, Hh. unfold trace in Hno. simpl in Hno.
  destruct (recordBounces_runs bs w1) as (t2 & w2 & Hrun & Hrec & _).
  rewrite Hrun in Hh. rewrite Hh. unfold outcome, trace. simpl.
  rewrite recorded_app, Hno, Hrec. simpl.
  split; [reflexivity|]. split; [reflexivity|].
  exists t2, w2. repeat split; assumption.
Qed.

(** C2.  Once the dispatch has yielded a list of bounces, the Recorder is
    called once per bounce, in list order, whatever it answers, and the call
    ends with the success response. *)
Theorem webhook_records_each_bounce (c : Context) (w w1 : World)
        (bs : list Bounce) (t : list Event) :
  collect c w = (inr bs, t, w1) ->
  outcome (handle c w) = inr (JSON StatusOK okTrue) /\
  recorded (trace (handle c w)) = bs /\
  exists t2 w2,
    recordBounces World app bs w1 = (inr tt, t2, w2) /\
    recorded t2 = bs /\
    handle c w = (inr (JSON StatusOK okTrue), (t ++ t2)%list, w2).
Proof. exact (collect_then_record c w w1 bs t). Qed.

(** *** The native path *)

Lemma native_collect (c : Context) (w : World) (raw : string) (b : Bounce) :
  Param c "service" = "" ->
  Body c = inr raw ->
  json_Unmarshal json_Decode raw = Some b ->
  validate b = None ->
  collect c w =
  match defaults b w with
  | (inl e, t, w1) => (inl e, t, w1)
  | (inr b', t, w1) => (inr [b'], t, w1)
  end.
Proof.
  intros Hs Hb Hj Hv. unfold webhookBounces.
  rewrite Hb, Hs, Hj, Hv. simpl. run.
  destruct (nativeDefaults _ _ _ b w) as [[[e|b'] t] w1]; [reflexivity|].
  rewrite app_nil_r. reflexivity.
Qed.

Lemma native_handle (c : Context) (w : World) (raw : string) (b : Bounce) :
  Param c "service" = "" ->
  Body c = inr raw ->
  json_Unmarshal json_Decode raw = Some b ->
  validate b = None ->
  outcome (handle c w) = inr (JSON StatusOK okTrue) /\
  recorded (trace (handle c w)) = [nativeRecord strings_ToLower (fst (time_Now app w)) b] /\
  (time.Year (CreatedAt b) <> 0 -> ~ In EvNow (trace (handle c w))).
Proof.
  intros Hs Hb Hj Hv.
  pose proof (native_collect c w raw b Hs Hb Hj Hv) as Hc.
  rewrite defaults_run in Hc. cbv zeta in Hc.
  rewrite handle_after_collect. unfold nativeRecord.
  destruct (Z.eqb_spec (time.Year (CreatedAt b)) 0) as [Hy|Hy]; rewrite Hc;
    match goal with
    | |- context [recordBounces World app ?l ?w1] =>
        destruct (recordBounces_runs l w1) as (t2 & w2 & Hrun & Hrec & Had); rewrite Hrun
    end; unfold outcome, trace; simpl; rewrite ?Hrec.
  - repeat split. intros H; contradiction.
  - repeat split. intros _ Hin.
    assert (Hno : forall l, l = t2 -> In EvNow l -> False).
    { clear - Hrun. intros l ->. revert Hrun. simpl. run.
      destruct (bounce_Record app _ w) as [[e|] w']; simpl;
        intros H; inversion H; subst; simpl; intuition discriminate. }
    exact (Hno _ eq_refl Hin).
Qed.

(** C10.  On the native path, for a payload that passes validation, the
    record handed to the Recorder carries the parsed [subscriberUUID],
    [campaignID], [type] and [source] (and [id]) unchanged; only [email]
    (lowercased), [meta] (defaulted when empty) and [createdAt] (defaulted
    when its year is zero) may differ.  In particular [source] is not
    stamped. *)
Theorem native_path_changes_only_three_fields
        (c : Context) (w : World) (raw : string) (b : Bounce) :
  Param c "service" = "" ->
  Body c = inr raw ->
  json_Unmarshal json_Decode raw = Some b ->
  validate b = None ->
  exists b',
    recorded (trace (handle c w)) = [b'] /\
    SubscriberUUID b' = SubscriberUUID b /\
    CampaignID b' = CampaignID b /\
    Type_ b' = Type_ b /\
    Source b' = Source b /\
    ID b' = ID b /\
    Email b' = strings_ToLower (Email b) /\
    Meta b' = (if Nat.eqb (String.length (Meta b)) 0 then "{}" else Meta b) /\
    CreatedAt b' = (if time.Year (CreatedAt b) =? 0 then fst (time_Now app w)
                    else CreatedAt b).
Proof.
  intros Hs Hb Hj Hv.
  destruct (native_handle c w raw b Hs Hb Hj Hv) as (_ & Hrec & _).
  eexists. split; [exact Hrec|]. unfold nativeRecord. simpl. repeat split.
Qed.

(** C8, on the code.  For a native payload that passes validation the
    recorded address is the lowercase form of the submitted one and a
    missing [meta] is recorded as the empty object; but a missing
    [createdAt] is recorded as Go's zero time (January 1 of year 1) and the
    clock is never read, since the year of the zero time is 1, not 0. *)
Theorem native_path_missing_createdAt_stays_zero
        (c : Context) (w : World) (raw : string) (j : BounceJSON) :
  Param c "service" = "" ->
  Body c = inr raw ->
  json_Decode raw = Some j ->
  validate (unmarshalBounce j) = None ->
  exists b',
    recorded (trace (handle c w)) = [b'] /\
    Email b' = strings_ToLower (orZero "" (j_email j)) /\
    (j_meta j = None -> Meta b' = "{}") /\
    (j_created_at j = None ->
     CreatedAt b' = time.zero /\ time.Year (CreatedAt b') = 1 /\
     ~ In EvNow (trace (handle c w))).
Proof.
  intros Hs Hb Hj Hv.
  assert (Hu : json_Unmarshal json_Decode raw = Some (unmarshalBounce j)).
  { unfold json_Unmarshal. rewrite Hj. reflexivity. }
  destruct (native_handle c w raw _ Hs Hb Hu Hv) as (_ & Hrec & Hnow).
  eexists. split; [exact Hrec|]. unfold nativeRecord. simpl.
  split; [reflexivity|]. split.
  - intros ->. reflexivity.
  - intros Hc. simpl in Hnow. rewrite Hc in *. simpl in *.
    repeat split. apply Hnow. discriminate.
Qed.

(** *** The provider paths *)

(** C5, as amended.  When the request body has been read, a call naming
    [ses] or [sendgrid] while that provider's flag is off fails with the
    unknown-service error; no adapter is invoked, nothing is recorded or
    logged, and the world is left as it was. *)
Theorem disabled_provider_is_unknown_service (c : Context) (w : World) (raw : string) :
  Body c = inr raw ->
  (Param c "service" = "ses" /\ BounceSESEnabled (constants app) = false) \/
  (Param c "service" = "sendgrid" /\ BounceSendgridEnabled (constants app) = false) ->
  handle c w =
    (inl (NewHTTPError StatusBadRequest (Ts "bounces.unknownService" [])), [], w) /\
  classify (NewHTTPError StatusBadRequest (Ts "bounces.unknownService" []))
    = Some UnknownService.
Proof.
  intros Hb Hs. split; [|reflexivity].
  rewrite handle_after_collect. unfold webhookBounces. rewrite Hb.
  destruct Hs as [[-> ->]|[-> ->]]; reflexivity.
Qed.

(** C3.  On the SES path with the provider enabled: a confirmation message
    whose handshake succeeds yields and records no bounce; a notification
    whose envelope the adapter accepts yields exactly one bounce, which is
    recorded; any other message type fails as invalid input with nothing
    recorded. *)
Theorem ses_path_by_message_type (c : Context) (w : World) :
  Param c "service" = "ses" ->
  BounceSESEnabled (constants app) = true ->
  (forall raw w1,
      Header_Get c "X-Amz-Sns-Message-Type" = "SubscriptionConfirmation" \/
      Header_Get c "X-Amz-Sns-Message-Type" = "UnsubscribeConfirmation" ->
      Body c = inr raw ->
      SES_ProcessSubscription app raw w = (None, w1) ->
      collect c w = (inr [], [EvSESSubscription raw], w1) /\
      handle c w = (inr (JSON StatusOK okTrue), [EvSESSubscription raw], w1) /\
      recorded (trace (handle c w)) = []) /\
  (forall raw b w1,
      Header_Get c "X-Amz-Sns-Message-Type" = "Notification" ->
      Body c = inr raw ->
      SES_ProcessBounce app raw w = (inr b, w1) ->
      collect c w = (inr [b], [EvSESBounce raw], w1) /\
      outcome (handle c w) = inr (JSON StatusOK okTrue) /\
      recorded (trace (handle c w)) = [b]) /\
  (Header_Get c "X-Amz-Sns-Message-Type" <> "SubscriptionConfirmation" ->
   Header_Get c "X-Amz-Sns-Message-Type" <> "UnsubscribeConfirmation" ->
   Header_Get c "X-Amz-Sns-Message-Type" <> "Notification" ->
   (exists e, outcome (handle c w) = inl e /\ classify e = Some InvalidInput) /\
   recorded (trace (handle c w)) = [] /\
   filter isAdapterCall (trace (handle c w)) = [] /\
   (forall raw, Body c = inr raw -> handle c w = (inl invalidData, [], w))).
Proof.
  intros Hs Hen. split; [|split].
  - intros raw w1 Hmt Hb Hsub.
    assert (Hc : collect c w = (inr [], [EvSESSubscription raw], w1)).
    { unfold webhookBounces. rewrite Hb, Hs, Hen. simpl.
      destruct Hmt as [-> | ->]; simpl; run; rewrite Hsub; reflexivity. }
    split; [exact Hc|]. rewrite handle_after_collect, Hc. simpl. run. split; reflexivity.
  - intros raw b w1 Hmt Hb Hpb.
    assert (Hc : collect c w = (inr [b], [EvSESBounce raw], w1)).
    { unfold webhookBounces. rewrite Hb, Hs, Hen, Hmt. simpl.
      run. rewrite Hpb. reflexivity. }
    split; [exact Hc|].
    destruct (collect_then_record c w w1 [b] _ Hc) as (Ho & Hr & _).
    split; assumption.
  - intros H1 H2 H3.
    rewrite handle_after_collect. unfold webhookBounces. rewrite Hs, Hen.
    apply String.eqb_neq in H1, H2, H3.
    destruct (Body c) as [err|raw]; simpl.
    + run. simpl. split; [eexists; split; reflexivity|].
      repeat split. intros raw H; discriminate.
    + rewrite H1, H2, H3. simpl. split; [eexists; split; reflexivity|].
      repeat split.
Qed.

Section SendgridPath.

Variable SGEvent : Type.
Variable verifySignature : string -> string -> string -> bool.
Variable key : string.
Variable bounceEvents : string -> option (list SGEvent).
Variable toBounce : SGEvent -> Bounce.

(** The application's Sendgrid adapter is the one the specification
    describes. *)
Hypothesis app_sendgrid :
  forall sig ts raw w,
    Sendgrid_ProcessBounce app sig ts raw w =
    (Sendgrid_ProcessBounce_model SGEvent verifySignature key bounceEvents toBounce sig ts raw, w).


End SendgridPath.

End Webhook.

(** ** Deletion *)

Lemma ParseInt_syntax_is_zero (s : string) :
  snd (strconv.ParseInt s) = Some strconv.ErrSyntax -> fst (strconv.ParseInt s) = 0.
Proof.
  unfold strconv.ParseInt. destruct s as [|a s]; [reflexivity|].
  destruct (strconv.ParseUint _) as [un [[]|]]; simpl; try reflexivity;
    destruct (negb _ && _); simpl; try discriminate;
    destruct (_ && _); simpl; discriminate.
Qed.

Lemma parseStringIDs_model_bad (ids : list string) :
  existsb badID ids = true -> exists e, parseStringIDs_model ids = inl e.
Proof.
  induction ids as [|v ids IH]; simpl; [discriminate|].
  unfold badID at 1. destruct (strconv.ParseInt v) as [i [err|]].
  - intros _. eexists; reflexivity.
  - destruct (i <? 1); simpl.
    + intros _. eexists; reflexivity.
    + intros H. destruct (IH H) as [e ->]. eexists; reflexivity.
Qed.

Lemma parseStringIDs_model_good (ids : list string) :
  existsb badID ids = false ->
  parseStringIDs_model ids = inr (map (fun v => fst (strconv.ParseInt v)) ids).
Proof.
  induction ids as [|v ids IH]; simpl; [reflexivity|].
  unfold badID at 1. destruct (strconv.ParseInt v) as [i [err|]]; simpl; [discriminate|].
  destruct (i <? 1); simpl; [discriminate|].
  intros H. rewrite (IH H). reflexivity.
Qed.

Section Deletion.

Variable pqErrMsg : Err -> string.
Variable World : Type.
Variable app : App World.

Local Abbreviation ids_of := (deleteIDs parseStringIDs_model).
Local Abbreviation delete := (handleDeleteBounces parseStringIDs_model pqErrMsg World app).

(** C6, as amended.  The mode of a deletion call is resolved in the order
    path id, [all] flag, explicit id set.  A non-empty path id that is not a
    number, or whose value is below 1, fails as invalid-id, and one whose
    value is at least 1 is the single id deleted.  With no path id and [all]
    false, an unparseable or non-positive query id fails as invalid-id, an
    empty id set fails as invalid-id, and otherwise the ids given are
    deleted.  With no path id and [all] true the delete statement is run
    with an empty id array, whatever the query ids are.  A call that fails
    as invalid-id never reaches the delete statement. *)
Theorem delete_modes_in_priority_order (c : Context) :
  (Param c "id" <> "" ->
   snd (strconv.ParseInt (Param c "id")) = Some strconv.ErrSyntax \/
   fst (strconv.ParseInt (Param c "id")) < 1 ->
   ids_of c = inl invalidID) /\
  (Param c "id" <> "" ->
   1 <= fst (strconv.ParseInt (Param c "id")) ->
   ids_of c = inr [fst (strconv.ParseInt (Param c "id"))]) /\
  (Param c "id" = "" ->
   fst (strconv.ParseBool (QueryParam c "all")) = false ->
   existsb badID (values_All (Query c) "id") = true ->
   exists e, ids_of c = inl e /\
             code e = StatusBadRequest /\
             msgKey (message e) = "globals.messages.invalidID") /\
  (Param c "id" = "" ->
   fst (strconv.ParseBool (QueryParam c "all")) = false ->
   values_All (Query c) "id" = [] ->
   ids_of c = inl (NewHTTPError StatusBadRequest (Ts "globals.messages.invalidID" []))) /\
  (Param c "id" = "" ->
   fst (strconv.ParseBool (QueryParam c "all")) = false ->
   values_All (Query c) "id" <> [] ->
   existsb badID (values_All (Query c) "id") = false ->
   ids_of c = inr (map (fun v => fst (strconv.ParseInt v)) (values_All (Query c) "id"))) /\
  (Param c "id" = "" ->
   fst (strconv.ParseBool (QueryParam c "all")) = true ->
   ids_of c = inr []) /\
  (forall e w, ids_of c = inl e -> delete c w = (inl e, [], w)) /\
  (forall IDs w, ids_of c = inr IDs ->
                 exists t, trace (delete c w) = EvDelete IDs :: t).
Proof.
  assert (Hfail : forall e w, ids_of c = inl e -> delete c w = (inl e, [], w)).
  { intros e w He. unfold handleDeleteBounces. rewrite He. reflexivity. }
  assert (Hrun : forall IDs w, ids_of c = inr IDs ->
                               exists t, trace (delete c w) = EvDelete IDs :: t).
  { intros IDs w He. unfold handleDeleteBounces. rewrite He. run.
    destruct (DeleteBounces_Exec app IDs w) as [[err|] w1]; eexists; reflexivity. }
  refine (conj _ (conj _ (conj _ (conj _ (conj _ (conj _ (conj Hfail Hrun)))))));
    clear Hfail Hrun; unfold deleteIDs;
    destruct (String.eqb_spec (Param c "id") "") as [Hp|Hp]; simpl;
    try (intros; congruence).
  - intros _ H.
    assert (Hlt : fst (strconv.ParseInt (Param c "id")) < 1).
    { destruct H as [H|H]; [rewrite (ParseInt_syntax_is_zero _ H); lia | exact H]. }
    apply Z.ltb_lt in Hlt. rewrite Hlt. reflexivity.
  - intros _ H. destruct (Z.ltb_spec (fst (strconv.ParseInt (Param c "id"))) 1); [lia|].
    reflexivity.
  - intros _ -> Hbad. simpl. destruct (parseStringIDs_model_bad _ Hbad) as [e ->].
    eexists; split; [reflexivity|]. split; reflexivity.
  - intros _ -> ->. reflexivity.
  - intros _ -> Hne Hgood. simpl. rewrite (parseStringIDs_model_good _ Hgood).
    destruct (values_All (Query c) "id"); [contradiction|]. reflexivity.
  - intros _ ->. reflexivity.
Qed.

End Deletion.

(** ** Listing *)

Lemma strSliceContains_In (str : string) (sl : list string) :
  strSliceContains str sl = true <-> In str sl.
Proof.
  unfold strSliceContains. rewrite existsb_exists. split.
  - intros (x & Hin & Heq). apply String.eqb_eq in Heq. subst. exact Hin.
  - intros Hin. exists str. split; [exact Hin | apply String.eqb_refl].
Qed.

Section Listing.

Variable getPagination : list (string * list string) -> Z -> Z -> Pagination.
Variable pqErrMsg : Err -> string.
Variable otherSortFields : list string.
Variables sortAsc sortDesc : string.
Variable World : Type.
Variable app : App World.

Local Abbreviation fields := (bounceQuerySortFields_model otherSortFields).
Local Abbreviation orderBy_of := (sortOrderBy fields).
Local Abbreviation order_of := (sortOrder sortAsc sortDesc).
Local Abbreviation list_ :=
  (handleGetBounces getPagination pqErrMsg fields sortAsc sortDesc World app).
Local Abbreviation query_of c :=
  (Sprintf (QueryBounces app)
           [orderBy_of (FormValue c "order_by"); order_of (FormValue c "order")]).

Lemma default_field_is_allow_listed : In "created_at" fields.
Proof. unfold bounceQuerySortFields_model. apply in_or_app. right. left. reflexivity. Qed.

(** C9.  Every list request runs the query: the handler calls [db.Select]
    with the template into which the two sort parameters are interpolated,
    and its answer, its trace and the state it leaves are those of that
    call, so that the only failure is a failure of the database.  The field
    interpolated is always on the allow-list: it is the requested one when
    that is allow-listed and the default [created_at] otherwise.  The
    direction interpolated is the requested one when it is [sortAsc] or
    [sortDesc] and the default ([sortDesc]) otherwise. *)
Theorem list_sort_falls_back_to_defaults (c : Context) (w : World) :
  list_ c w =
  match db_Select app (query_of c) (listArgs getPagination c) w with
  | (inl err, w1) =>
      (inl (errorFetching pqErrMsg err),
       [EvSelect (query_of c) (listArgs getPagination c);
        EvLog "error fetching bounces: %v" err], w1)
  | (inr [], w1) =>
      (inr (JSON StatusOK (okWrap (mkWrap [] 0 0 0))),
       [EvSelect (query_of c) (listArgs getPagination c)], w1)
  | (inr (r0 :: rest), w1) =>
      (inr (JSON StatusOK
              (if 0 <? fst (strconv.Atoi (Param c "id")) then okBounce r0
               else okWrap (mkWrap (r0 :: rest) (Total r0)
                                   (pgPerPage (getPagination (Query c) 20 50))
                                   (pgPage (getPagination (Query c) 20 50))))),
       [EvSelect (query_of c) (listArgs getPagination c)], w1)
  end /\
  (forall e, outcome (list_ c w) = inl e ->
             exists err w1,
               db_Select app (query_of c) (listArgs getPagination c) w = (inl err, w1) /\
               e = errorFetching pqErrMsg err) /\
  In (orderBy_of (FormValue c "order_by")) fields /\
  (~ In (FormValue c "order_by") fields ->
   orderBy_of (FormValue c "order_by") = "created_at") /\
  (In (FormValue c "order_by") fields ->
   orderBy_of (FormValue c "order_by") = FormValue c "order_by") /\
  (FormValue c "order" <> sortAsc -> FormValue c "order" <> sortDesc ->
   order_of (FormValue c "order") = sortDesc) /\
  (FormValue c "order" = sortAsc \/ FormValue c "order" = sortDesc ->
   order_of (FormValue c "order") = FormValue c "order").
Proof.
  assert (Hrun :
    list_ c w =
    match db_Select app (query_of c) (listArgs getPagination c) w with
    | (inl err, w1) =>
        (inl (errorFetching pqErrMsg err),
         [EvSelect (query_of c) (listArgs getPagination c);
          EvLog "error fetching bounces: %v" err], w1)
    | (inr [], w1) =>
        (inr (JSON StatusOK (okWrap (mkWrap [] 0 0 0))),
         [EvSelect (query_of c) (listArgs getPagination c)], w1)
    | (inr (r0 :: rest), w1) =>
        (inr (JSON StatusOK
                (if 0 <? fst (strconv.Atoi (Param c "id")) then okBounce r0
                 else okWrap (mkWrap (r0 :: rest) (Total r0)
                                     (pgPerPage (getPagination (Query c) 20 50))
                                     (pgPage (getPagination (Query c) 20 50))))),
         [EvSelect (query_of c) (listArgs getPagination c)], w1)
    end).
  { unfold handleGetBounces, listArgs. cbv zeta. run.
    destruct (db_Select app _ _ w) as [[err|rows] w1]; [reflexivity|].
    destruct rows as [|r0 rest]; [reflexivity|].
    destruct (0 <? fst (strconv.Atoi (Param c "id"))); reflexivity. }
  split; [exact Hrun|]. split; [|split; [|split; [|split; [|split]]]].
  - rewrite Hrun.
    destruct (db_Select app _ _ w) as [[err|[|r0 rest]] w1];
      unfold outcome; simpl; intros e H; inversion H; subst.
    exists err, w1. split; reflexivity.
  - unfold sortOrderBy.
    destruct (strSliceContains _ _) eqn:Hin; simpl;
      [|exact default_field_is_allow_listed].
    apply strSliceContains_In. exact Hin.
  - intros Hnot. unfold sortOrderBy.
    destruct (strSliceContains _ _) eqn:Hin; simpl; [|reflexivity].
    apply strSliceContains_In in Hin. contradiction.
  - intros Hin. apply strSliceContains_In in Hin. unfold sortOrderBy. rewrite Hin. reflexivity.
  - intros Ha Hd. unfold sortOrder.
    apply String.eqb_neq in Ha, Hd. rewrite Ha, Hd. reflexivity.
  - intros [H|H]; unfold sortOrder; rewrite H at 1 2.
    + rewrite String.eqb_refl. reflexivity.
    + rewrite String.eqb_refl, andb_false_r. reflexivity.
Qed.

End Listing.

(** ** The handlers on concrete calls *)

Module Runs.

Import Fixture.

(** C1, counterexample.  A record with a valid address and a valid
    subscriber UUID, both non-empty, is accepted. *)
Lemma validate_accepts_both_fields :
  validateBounceFields IsEmail_model reUUID_model both = None /\
  Email both <> "" /\ SubscriberUUID both <> "" /\
  ~ ((Email both <> "" /\ SubscriberUUID both = "") \/
     (Email both = "" /\ SubscriberUUID both <> "")).
Proof.
  split; [reflexivity|]. split; [discriminate|]. split; [discriminate|].
  intros [[_ H]|[H _]]; discriminate.
Qed.

Lemma validate_accepts_at_least_one_witness :
  (validateBounceFields IsEmail_model reUUID_model both = None ->
   Email both <> "" \/ SubscriberUUID both <> "") /\
  validateBounceFields IsEmail_model reUUID_model both = None.
Proof.
  destruct (validate_accepts_at_least_one IsEmail_model reUUID_model both) as [H1 H2].
  split; [exact H1|].
  apply H2; [discriminate | discriminate | reflexivity | reflexivity].
Defined.

(** A batch of three whose second record the Recorder refuses: all three
    are handed over, two are stored, the call succeeds. *)
Lemma webhook_records_each_bounce_witness :
  outcome (webhook true true threeSigned w0) = inr (JSON StatusOK okTrue) /\
  recorded (trace (webhook true true threeSigned w0)) = three /\
  table (world (webhook true true threeSigned w0)) =
    [withEmail "a@example.com" "hard"; withEmail "c@example.com" "soft"].
Proof.
  destruct (webhook_records_each_bounce IsEmail_model reUUID_model ToLower_ascii decode
              World (app true true) threeSigned w0 w0 three
              [EvSendgridBounce "k1three" "1" "three"] eq_refl) as (Ho & Hr & _).
  split; [exact Ho|]. split; [exact Hr|]. reflexivity.
Defined.

Lemma ses_path_by_message_type_witness :
  recorded (trace (webhook true true
                     (request "ses" (snsHeader "SubscriptionConfirmation") (inr "confirm"))
                     w0)) = [] /\
  recorded (trace (webhook true true
                     (request "ses" (snsHeader "Notification") (inr "notification"))
                     w0)) = [sesBounce] /\
  webhook true true (request "ses" (snsHeader "Bounce") (inr "notification")) w0
  = (inl invalidData, [], w0).
Proof.
  split; [|split].
  - destruct (ses_path_by_message_type IsEmail_model reUUID_model ToLower_ascii decode
                World (app true true)
                (request "ses" (snsHeader "SubscriptionConfirmation") (inr "confirm")) w0
                eq_refl eq_refl) as (H & _ & _).
    apply (H "confirm" w0 (or_introl eq_refl) eq_refl eq_refl).
  - destruct (ses_path_by_message_type IsEmail_model reUUID_model ToLower_ascii decode
                World (app true true)
                (request "ses" (snsHeader "Notification") (inr "notification")) w0
                eq_refl eq_refl) as (_ & H & _).
    apply (H "notification" sesBounce w0 eq_refl eq_refl eq_refl).
  - destruct (ses_path_by_message_type IsEmail_model reUUID_model ToLower_ascii decode
                World (app true true)
                (request "ses" (snsHeader "Bounce") (inr "notification")) w0
                eq_refl eq_refl) as (_ & _ & H).
    destruct H as (_ & _ & _ & H); [discriminate | discriminate | discriminate |].
    apply (H "notification" eq_refl).
Defined.


(** C5, counterexample.  A call naming [ses] while its flag is off, whose
    body cannot be read, fails with the internal-error message, which is not
    the unknown-service error. *)
Lemma disabled_provider_unreadable_body :
  Param (request "ses" [] (inl "unexpected EOF")) "service" = "ses" /\
  BounceSESEnabled (constants (app false true)) = false /\
  webhook false true (request "ses" [] (inl "unexpected EOF")) w0
  = (inl (NewHTTPError StatusBadRequest (Ts "globals.messages.internalError" [])),
     [EvLog "error reading ses notification body: %v" "unexpected EOF"], w0) /\
  classify (NewHTTPError StatusBadRequest (Ts "globals.messages.internalError" []))
  = Some InvalidInput.
Proof. repeat split. Qed.

Lemma disabled_provider_is_unknown_service_witness :
  webhook false true (request "ses" (snsHeader "Notification") (inr "notification")) w0
  = (inl (NewHTTPError StatusBadRequest (Ts "bounces.unknownService" [])), [], w0) /\
  webhook true false threeSigned w0
  = (inl (NewHTTPError StatusBadRequest (Ts "bounces.unknownService" [])), [], w0).
Proof.
  split.
  - apply (disabled_provider_is_unknown_service IsEmail_model reUUID_model ToLower_ascii
             decode World (app false true)
             (request "ses" (snsHeader "Notification") (inr "notification")) w0
             "notification" eq_refl (or_introl (conj eq_refl eq_refl))).
  - apply (disabled_provider_is_unknown_service IsEmail_model reUUID_model ToLower_ascii
             decode World (app true false) threeSigned w0
             "three" eq_refl (or_intror (conj eq_refl eq_refl))).
Defined.

(** C8 at a payload with an address and nothing else: the address is
    lowercased and [meta] defaulted, and the record is stored with the zero
    time although the clock reads 2021. *)
Lemma native_path_missing_createdAt_stays_zero_witness :
  exists b',
    recorded (trace (webhook true true nativeMixed w0)) = [b'] /\
    Email b' = "user@example.com" /\
    Meta b' = "{}" /\
    CreatedAt b' = time.zero /\
    CreatedAt b' <> fst (time_Now (app true true) w0).
Proof.
  destruct (native_path_missing_createdAt_stays_zero IsEmail_model reUUID_model
              ToLower_ascii decode World (app true true) nativeMixed w0 bodyMixed jsonMixed
              eq_refl eq_refl eq_refl eq_refl) as (b' & Hr & He & Hm & Hc).
  exists b'. split; [exact Hr|]. split; [exact He|]. split; [exact (Hm eq_refl)|].
  destruct (Hc eq_refl) as (Hz & _ & _). split; [exact Hz|].
  rewrite Hz. discriminate.
Defined.

Lemma native_path_changes_only_three_fields_witness :
  exists b',
    recorded (trace (webhook true true (request "" [] (inr bodyBoth)) w0)) = [b'] /\
    SubscriberUUID b' = "123e4567-e89b-42d3-a456-426614174000" /\
    Source b' = "" /\
    Email b' = "user@example.com".
Proof.
  destruct (native_path_changes_only_three_fields IsEmail_model reUUID_model
              ToLower_ascii decode World (app true true)
              (request "" [] (inr bodyBoth)) w0 bodyBoth both
              eq_refl eq_refl eq_refl eq_refl)
    as (b' & Hr & Hu & _ & _ & Hs & _ & He & _).
  exists b'. split; [exact Hr|]. split; [exact Hu|]. split; [exact Hs|]. exact He.
Defined.

(** C6, counterexample.  With no path id, [all=true] and the unparseable
    query id [abc], the call does not fail as invalid-id: the delete
    statement is run with an empty id array. *)
Lemma delete_all_ignores_unparseable_ids :
  Param allWithBadID "id" = "" /\
  existsb badID (values_All (Query allWithBadID) "id") = true /\
  deleteIDs parseStringIDs_model allWithBadID = inr [] /\
  handleDeleteBounces parseStringIDs_model (fun e => e) World (app true true) allWithBadID w0
  = (inr (JSON StatusOK okTrue), [EvDelete []], w0).
Proof. repeat split. Qed.

(** A path id one past the largest [int64]: [ParseInt] reports a range
    error, which the handler drops, and hands back the largest [int64],
    which is deleted. *)
Example delete_path_id_beyond_int64 :
  strconv.ParseInt "9223372036854775808" = (9223372036854775807, Some strconv.ErrRange) /\
  deleteIDs parseStringIDs_model (deleteCall [("id", "9223372036854775808")] [])
  = inr [9223372036854775807].
Proof. split; reflexivity. Qed.

Lemma delete_modes_in_priority_order_witness :
  deleteIDs parseStringIDs_model (deleteCall [("id", "0")] []) = inl invalidID /\
  deleteIDs parseStringIDs_model (deleteCall [("id", "x1")] []) = inl invalidID /\
  deleteIDs parseStringIDs_model (deleteCall [("id", "12")] [("id", ["3"])]) = inr [12] /\
  (exists e, deleteIDs parseStringIDs_model (deleteCall [] [("id", ["3"; "-4"])]) = inl e) /\
  deleteIDs parseStringIDs_model (deleteCall [] [])
  = inl (NewHTTPError StatusBadRequest (Ts "globals.messages.invalidID" [])) /\
  deleteIDs parseStringIDs_model (deleteCall [] [("id", ["3"; "4"])]) = inr [3; 4] /\
  deleteIDs parseStringIDs_model (deleteCall [] [("all", ["true"])]) = inr [].
Proof.
  split; [|split; [|split; [|split; [|split; [|split]]]]].
  - destruct (delete_modes_in_priority_order (fun e => e) World (app true true)
                (deleteCall [("id", "0")] [])) as (H & _).
    apply H; [discriminate | right; reflexivity].
  - destruct (delete_modes_in_priority_order (fun e => e) World (app true true)
                (deleteCall [("id", "x1")] [])) as (H & _).
    apply H; [discriminate | left; reflexivity].
  - destruct (delete_modes_in_priority_order (fun e => e) World (app true true)
                (deleteCall [("id", "12")] [("id", ["3"])])) as (_ & H & _).
    apply H; [discriminate | discriminate].
  - destruct (delete_modes_in_priority_order (fun e => e) World (app true true)
                (deleteCall [] [("id", ["3"; "-4"])])) as (_ & _ & H & _).
    destruct (H eq_refl eq_refl eq_refl) as (e & He & _). exists e. exact He.
  - destruct (delete_modes_in_priority_order (fun e => e) World (app true true)
                (deleteCall [] [])) as (_ & _ & _ & H & _).
    apply H; reflexivity.
  - destruct (delete_modes_in_priority_order (fun e => e) World (app true true)
                (deleteCall [] [("id", ["3"; "4"])])) as (_ & _ & _ & _ & H & _).
    apply H; [reflexivity | reflexivity | discriminate | reflexivity].
  - destruct (delete_modes_in_priority_order (fun e => e) World (app true true)
                (deleteCall [] [("all", ["true"])])) as (_ & _ & _ & _ & _ & H & _).
    apply H; reflexivity.
Defined.

(** A request that asks for a field off the list and a direction that is
    neither: the query is run sorted by [created_at desc] and its rows come
    back. *)
Lemma list_sort_falls_back_to_defaults_witness :
  handleGetBounces getPagination (fun e => e)
                   (bounceQuerySortFields_model ["email"; "campaign_name"; "source"])
                   "asc" "desc" World (app true true)
                   (listCall "id; DROP TABLE bounces" "sideways") Cases.w3
  = (inr (JSON StatusOK (okWrap (mkWrap (table Cases.w3) 3 20 1))),
     [EvSelect (Sprintf "SELECT * FROM bounces ORDER BY %s %s" ["created_at"; "desc"])
               [AInt 0; AInt 0; AInt 0; AStr ""; AInt 0; AInt 20]],
     Cases.w3) /\
  In "created_at" (bounceQuerySortFields_model ["email"; "campaign_name"; "source"]) /\
  ~ In "id; DROP TABLE bounces"
       (bounceQuerySortFields_model ["email"; "campaign_name"; "source"]).
Proof.
  destruct (list_sort_falls_back_to_defaults getPagination (fun e => e)
              ["email"; "campaign_name"; "source"] "asc" "desc" World (app true true)
              (listCall "id; DROP TABLE bounces" "sideways") Cases.w3)
    as (Hrun & _ & Hin & Hdef & _ & _ & _).
  assert (Hoff : ~ In "id; DROP TABLE bounces"
                      (bounceQuerySortFields_model ["email"; "campaign_name"; "source"])).
  { simpl. intros [H|[H|[H|[H|[]]]]]; discriminate. }
  split; [rewrite Hrun; reflexivity|]. split; [|exact Hoff].
  specialize (Hdef Hoff). simpl in Hdef, Hin. rewrite Hdef in Hin. exact Hin.
Defined.

End Runs.

(** ** More on the webhook dispatcher *)

Lemma validate_error_shape (IsEmail reUUID_MatchString : string -> bool)
      (b : Bounce) (e : HTTPError) :
  validateBounceFields IsEmail reUUID_MatchString b = Some e ->
  code e = StatusBadRequest /\
  (message e = T "globals.messages.invalidData" \/
   message e = T "globals.messages.invalidEmail" \/
   message e = T "globals.messages.invalidUUID").
Proof.
  unfold validateBounceFields.
  destruct (_ && _); [intros H; inversion H; subst; simpl; tauto|].
  destruct (_ && _); [intros H; inversion H; subst; simpl; tauto|].
  destruct (_ && _); [intros H; inversion H; subst; simpl; tauto|].
  discriminate.
Qed.

Section WebhookEdges.

Variable IsEmail : string -> bool.
Variable reUUID_MatchString : string -> bool.
Variable strings_ToLower : string -> string.
Variable json_Decode : string -> option BounceJSON.
Variable World : Type.
Variable app : App World.

Local Abbreviation validate := (validateBounceFields IsEmail reUUID_MatchString).
Local Abbreviation collect :=
  (webhookBounces IsEmail reUUID_MatchString strings_ToLower json_Decode World app).
Local Abbreviation handle :=
  (handleBounceWebhook IsEmail reUUID_MatchString strings_ToLower json_Decode World app).
Local Abbreviation after_collect :=
  (handle_after_collect IsEmail reUUID_MatchString strings_ToLower json_Decode World app).

Lemma handle_of_collect_error (c : Context) (w w1 : World) (e : HTTPError) (t : list Event) :
  collect c w = (inl e, t, w1) -> handle c w = (inl e, t, w1).
Proof. intros H. rewrite after_collect, H. reflexivity. Qed.

(** X1.  A request whose body cannot be read is answered with the 400
    internal-error message whatever service it names and whatever the flags
    are; the read error is logged and nothing else happens. *)
Theorem webhook_unreadable_body (c : Context) (w : World) (err : Err) :
  Body c = inl err ->
  handle c w =
  (inl (NewHTTPError StatusBadRequest (Ts "globals.messages.internalError" [])),
   [EvLog "error reading ses notification body: %v" err], w).
Proof.
  intros Hb. apply handle_of_collect_error. unfold webhookBounces. rewrite Hb. reflexivity.
Qed.

(** X2.  With the body read, a service name other than the empty one,
    [ses] and [sendgrid] is answered with the unknown-service error whatever
    the flags are; nothing is called, logged or recorded. *)
Theorem webhook_unknown_service_name (c : Context) (w : World) (raw : string) :
  Body c = inr raw ->
  Param c "service" <> "" ->
  Param c "service" <> "ses" ->
  Param c "service" <> "sendgrid" ->
  handle c w =
  (inl (NewHTTPError StatusBadRequest (Ts "bounces.unknownService" [])), [], w).
Proof.
  intros Hb H1 H2 H3. apply handle_of_collect_error. unfold webhookBounces. rewrite Hb.
  apply String.eqb_neq in H1, H2, H3. rewrite H1, H2, H3. reflexivity.
Qed.

(** X3.  On the native path a body that does not decode is answered with
    400 invalid-data, and a decoded record the Validator refuses is answered
    with the Validator's own error; in both cases nothing is recorded or
    logged, the clock is not read and the world is untouched. *)
Theorem webhook_native_rejections (c : Context) (w : World) (raw : string) :
  Param c "service" = "" ->
  Body c = inr raw ->
  (json_Decode raw = None ->
   handle c w =
   (inl (NewHTTPError StatusBadRequest (Ts "globals.messages.invalidData" [])), [], w)) /\
  (forall j e,
      json_Decode raw = Some j ->
      validate (unmarshalBounce j) = Some e ->
      handle c w = (inl e, [], w)).
Proof.
  intros Hs Hb. split.
  - intros Hj. apply handle_of_collect_error. unfold webhookBounces, json_Unmarshal.
    rewrite Hb, Hs, Hj. reflexivity.
  - intros j e Hj Hv. apply handle_of_collect_error. unfold webhookBounces, json_Unmarshal.
    rewrite Hb, Hs, Hj. simpl. rewrite Hv. reflexivity.
Qed.

(** X4.  On the SES path a failed handshake and a notification the
    adapter refuses are both answered with 400 invalid-data; the adapter's
    error is logged, not sent back, and nothing is recorded. *)
Theorem webhook_ses_adapter_failures (c : Context) (w w1 : World) (raw : string) (err : Err) :
  Param c "service" = "ses" ->
  BounceSESEnabled (constants app) = true ->
  Body c = inr raw ->
  (Header_Get c "X-Amz-Sns-Message-Type" = "SubscriptionConfirmation" \/
   Header_Get c "X-Amz-Sns-Message-Type" = "UnsubscribeConfirmation" ->
   SES_ProcessSubscription app raw w = (Some err, w1) ->
   handle c w =
   (inl invalidData,
    [EvSESSubscription raw; EvLog "error processing SNS (SES) subscription: %v" err], w1)) /\
  (Header_Get c "X-Amz-Sns-Message-Type" = "Notification" ->
   SES_ProcessBounce app raw w = (inl err, w1) ->
   handle c w =
   (inl invalidData,
    [EvSESBounce raw; EvLog "error processing SES notification: %v" err], w1)).
Proof.
  intros Hs Hen Hb. split.
  - intros Hmt Hsub. apply handle_of_collect_error. unfold webhookBounces.
    rewrite Hb, Hs, Hen. simpl. destruct Hmt as [-> | ->]; simpl; run; rewrite Hsub; reflexivity.
  - intros Hmt Hpb. apply handle_of_collect_error. unfold webhookBounces.
    rewrite Hb, Hs, Hen, Hmt. simpl. run. rewrite Hpb. reflexivity.
Qed.


(** Every way the dispatch can go: its error is a 400, and it calls at
    most one adapter. *)
Lemma collect_facts (c : Context) (w : World) :
  (forall e, outcome (collect c w) = inl e -> code e = StatusBadRequest) /\
  (List.length (filter isAdapterCall (trace (collect c w))) <= 1)%nat /\
  (Param c "service" = "" -> filter isAdapterCall (trace (collect c w)) = []).
Proof.
  unfold webhookBounces.
  destruct (Body c) as [err|raw]; [repeat split; simpl; auto; intros e H; inversion H; reflexivity|].
  destruct (String.eqb_spec (Param c "service") "") as [Hs|Hs].
  - destruct (json_Unmarshal json_Decode raw) as [b|];
      [|repeat split; simpl; auto; intros e H; inversion H; reflexivity].
    destruct (validate b) as [e0|] eqn:Hv.
    + apply validate_error_shape in Hv. destruct Hv as [Hcode _].
      repeat split; simpl; auto. intros e H; inversion H; subst; exact Hcode.
    + run. rewrite (defaults_run strings_ToLower World app). cbv zeta.
      destruct (time.Year (CreatedAt b) =? 0); repeat split; simpl; auto;
        intros e H; discriminate.
  - destruct (String.eqb (Param c "service") "ses" && BounceSESEnabled (constants app)).
    + destruct (_ || _).
      * run. destruct (SES_ProcessSubscription app raw w) as [[e0|] w1];
          repeat split; simpl; auto; try contradiction; intros e H; inversion H; reflexivity.
      * destruct (String.eqb _ "Notification").
        -- run. destruct (SES_ProcessBounce app raw w) as [[e0|b] w1];
             repeat split; simpl; auto; try contradiction; intros e H; inversion H; reflexivity.
        -- repeat split; simpl; auto; try contradiction; intros e H; inversion H; reflexivity.
    + destruct (String.eqb (Param c "service") "sendgrid" && _).
      * run. destruct (Sendgrid_ProcessBounce app _ _ raw w) as [[e0|bs] w1];
          repeat split; simpl; auto; try contradiction; intros e H; inversion H; reflexivity.
      * repeat split; simpl; auto; try contradiction; intros e H; inversion H; reflexivity.
Qed.

(** X6.  The webhook answers in one of two ways only: with the success
    response, or with a 400 error and nothing recorded.  In particular a
    failure of the Recorder never reaches the caller and no server error is
    ever returned. *)
Theorem webhook_answers_ok_or_bad_request (c : Context) (w : World) :
  outcome (handle c w) = inr (JSON StatusOK okTrue) \/
  (exists e, outcome (handle c w) = inl e /\
             code e = StatusBadRequest /\
             recorded (trace (handle c w)) = []).
Proof.
  destruct (collect_facts c w) as (Hcode & _ & _).
  pose proof (collect_records_nothing IsEmail reUUID_MatchString strings_ToLower
                json_Decode World app c w) as Hno.
  rewrite after_collect.
  destruct (collect c w) as [[[e|bs] t] w1].
  - right. exists e. unfold outcome, trace in *. simpl in *. auto.
  - left. destruct (recordBounces World app bs w1) as [[r t2] w2]. reflexivity.
Qed.

(** X7.  One call to the webhook invokes at most one provider adapter, and
    the native path invokes none. *)
Theorem webhook_at_most_one_adapter_call (c : Context) (w : World) :
  (List.length (filter isAdapterCall (trace (handle c w))) <= 1)%nat /\
  (Param c "service" = "" -> filter isAdapterCall (trace (handle c w)) = []).
Proof.
  destruct (collect_facts c w) as (_ & Hle & Hnat).
  rewrite after_collect.
  destruct (collect c w) as [[[e|bs] t] w1].
  - split; assumption.
  - destruct (recordBounces_runs World app bs w1) as (t2 & w2 & Hrun & _ & Had).
    rewrite Hrun. unfold trace in *. simpl in *.
    rewrite filter_app, Had, app_nil_r. split; assumption.
Qed.

(** The loop emits Record calls and log lines only, logs nothing when the
    Recorder does not fail, and leaves the world the Recorder calls leave
    one after the other. *)
Lemma recordBounces_events (bs : list Bounce) :
  forall w,
    forallb (fun e => isRecord e || isLog e) (trace (recordBounces World app bs w)) = true /\
    world (recordBounces World app bs w)
    = fold_left (fun w' b => snd (bounce_Record app b w')) bs w /\
    ((forall b w', fst (bounce_Record app b w') = None) ->
     trace (recordBounces World app bs w) = map EvRecord bs).
Proof.
  induction bs as [|b bs IH]; intros w; simpl.
  - repeat split.
  - run. destruct (bounce_Record app b w) as [r w1] eqn:Hr.
    pose proof (IH w1) as IH1.
    destruct (recordBounces_runs World app bs w1) as (t2 & w2 & Hrun & _).
    rewrite Hrun in IH1. unfold trace, world in *. simpl in IH1.
    destruct IH1 as (Hev & Hw & Hok).
    destruct r as [err|]; rewrite Hrun; simpl;
      (split; [exact Hev|]); (split; [exact Hw|]); intros Hnf.
    + specialize (Hnf b w). rewrite Hr in Hnf. discriminate.
    + rewrite (Hok Hnf). reflexivity.
Qed.

(** X8.  The recording loop threads the world through the Recorder calls
    in list order, a failed call included: the world it leaves is the fold
    of the Recorder over the list.  With a Recorder that does not fail its
    trace is exactly one Record call per bounce and no log line. *)
Theorem record_loop_threads_the_world (bs : list Bounce) (w : World) :
  world (recordBounces World app bs w)
  = fold_left (fun w' b => snd (bounce_Record app b w')) bs w /\
  ((forall b w', fst (bounce_Record app b w') = None) ->
   trace (recordBounces World app bs w) = map EvRecord bs).
Proof. destruct (recordBounces_events bs w) as (_ & Hw & Hok). split; assumption. Qed.

Lemma recordBounces_head (b : Bounce) (rest : list Bounce) (w : World) :
  exists t, trace (recordBounces World app (b :: rest) w) = EvRecord b :: t.
Proof.
  simpl. run. destruct (bounce_Record app b w) as [r w1].
  destruct (recordBounces_runs World app rest w1) as (t2 & w2 & Hrun & _).
  destruct r as [err|]; rewrite Hrun; eexists; reflexivity.
Qed.

Lemma recordBounces_no_clock (l : list Bounce) (w : World) :
  filter isClock (trace (recordBounces World app l w)) = [].
Proof.
  destruct (recordBounces_events l w) as (Hev & _ & _).
  induction (trace (recordBounces World app l w)) as [|e t IH]; [reflexivity|].
  simpl in Hev. apply andb_prop in Hev. destruct Hev as [He Ht].
  simpl. destruct e; simpl in *; try discriminate; auto.
Qed.

(** X9.  On the native path, for a payload that passes validation, the
    clock is read exactly when the parsed [createdAt] has year zero, and
    then once, before the record is handed to the Recorder. *)
Theorem native_clock_read_iff_year_zero (c : Context) (w : World) (raw : string) (b : Bounce) :
  Param c "service" = "" ->
  Body c = inr raw ->
  json_Unmarshal json_Decode raw = Some b ->
  validate b = None ->
  filter isClock (trace (handle c w))
  = (if time.Year (CreatedAt b) =? 0 then [EvNow] else []) /\
  (time.Year (CreatedAt b) = 0 ->
   exists t, trace (handle c w)
             = EvNow :: EvRecord (nativeRecord strings_ToLower (fst (time_Now app w)) b) :: t).
Proof.
  intros Hs Hb Hj Hv.
  pose proof (native_collect IsEmail reUUID_MatchString strings_ToLower json_Decode
                World app c w raw b Hs Hb Hj Hv) as Hc.
  rewrite (defaults_run strings_ToLower World app) in Hc. cbv zeta in Hc.
  rewrite after_collect. unfold nativeRecord.
  destruct (Z.eqb_spec (time.Year (CreatedAt b)) 0) as [Hy|Hy]; rewrite Hc;
    match goal with
    | |- context [recordBounces World app (?x :: ?l) ?w1] =>
        pose proof (recordBounces_no_clock (x :: l) w1) as Hl;
        destruct (recordBounces_head x l w1) as [t Ht];
        destruct (recordBounces World app (x :: l) w1) as [[r2 t2] w2]
    end; unfold trace in *; simpl in *; subst t2.
  - split; [rewrite Hl; reflexivity|]. intros _. eexists. reflexivity.
  - split; [exact Hl|]. intros H; contradiction.
Qed.

Lemma recordBounces_withConstants (k : Constants) (bs : list Bounce) :
  forall w, recordBounces World (withConstants k app) bs w = recordBounces World app bs w.
Proof.
  induction bs as [|b bs IH]; intros w; [reflexivity|].
  simpl. run. simpl. destruct (bounce_Record app b w) as [r w1].
  destruct r as [err|]; simpl; rewrite IH; reflexivity.
Qed.

Local Abbreviation handle_under k :=
  (handleBounceWebhook IsEmail reUUID_MatchString strings_ToLower json_Decode World
                       (withConstants k app)).

Lemma handle_under_after_collect (k : Constants) (c c' : Context) (w : World) :
  webhookBounces IsEmail reUUID_MatchString strings_ToLower json_Decode World
                 (withConstants k app) c' w = collect c w ->
  handle_under k c' w = handle c w.
Proof.
  intros Hc.
  rewrite after_collect.
  rewrite (handle_after_collect IsEmail reUUID_MatchString strings_ToLower json_Decode
             World (withConstants k app)).
  rewrite Hc. destruct (collect c w) as [[[e|bs] t] w1]; [reflexivity|].
  rewrite recordBounces_withConstants. reflexivity.
Qed.

(** X10.  The native path is always open and reads only the body: two
    native calls with the same body are handled alike whatever the feature
    flags, the headers, the query and the form values are. *)
Theorem native_path_ignores_flags_and_headers (k : Constants) (c c' : Context) (w : World) :
  Param c "service" = "" ->
  Param c' "service" = "" ->
  Body c' = Body c ->
  handle_under k c' w = handle c w.
Proof.
  intros Hs Hs' Hb. apply handle_under_after_collect.
  unfold webhookBounces. rewrite Hs, Hs', Hb.
  destruct (Body c) as [err|raw]; reflexivity.
Qed.

(** X11.  The two provider flags are independent: a call naming [ses] is
    handled alike under any setting of the Sendgrid flag, and a call naming
    [sendgrid] alike under any setting of the SES flag. *)
Theorem provider_flags_are_independent (k : Constants) (c : Context) (w : World) :
  (Param c "service" = "ses" ->
   BounceSESEnabled k = BounceSESEnabled (constants app) ->
   handle_under k c w = handle c w) /\
  (Param c "service" = "sendgrid" ->
   BounceSendgridEnabled k = BounceSendgridEnabled (constants app) ->
   handle_under k c w = handle c w).
Proof.
  split; intros Hs Hk; apply handle_under_after_collect;
    unfold webhookBounces; rewrite Hs; simpl; rewrite Hk;
    destruct (Body c) as [err|raw]; reflexivity.
Qed.

End WebhookEdges.

(** ** More on the Validator *)

(** X12.  Every record the Validator refuses gets a 400 carrying one of
    three messages: invalid data when both fields are empty, invalid email
    when the address is there and bad, invalid UUID otherwise.  A bad address
    is reported before a bad UUID. *)
Theorem validate_rejections_are_bad_requests
        (IsEmail reUUID_MatchString : string -> bool) (b : Bounce) (e : HTTPError) :
  validateBounceFields IsEmail reUUID_MatchString b = Some e ->
  code e = StatusBadRequest /\
  classify e = Some InvalidInput /\
  (message e = T "globals.messages.invalidData" <->
   Email b = "" /\ SubscriberUUID b = "") /\
  (message e = T "globals.messages.invalidEmail" <->
   Email b <> "" /\ IsEmail (Email b) = false) /\
  (message e = T "globals.messages.invalidUUID" <->
   SubscriberUUID b <> "" /\ reUUID_MatchString (SubscriberUUID b) = false /\
   (Email b = "" \/ IsEmail (Email b) = true)).
Proof.
  unfold validateBounceFields.
  destruct (String.eqb_spec (Email b) "") as [He|He];
    destruct (String.eqb_spec (SubscriberUUID b) "") as [Hu|Hu]; simpl;
    destruct (IsEmail (Email b)) eqn:Hie; simpl;
    destruct (reUUID_MatchString (SubscriberUUID b)) eqn:Hre; simpl;
    intros H; inversion H; subst; simpl;
    (split; [reflexivity|]); (split; [reflexivity|]);
    repeat split; intros; try discriminate; try reflexivity; try tauto;
    try (intuition congruence).
Qed.

(** ** More on listing *)

Section ListingEdges.

Variable getPagination : list (string * list string) -> Z -> Z -> Pagination.
Variable pqErrMsg : Err -> string.
Variable bounceQuerySortFields : list string.
Variables sortAsc sortDesc : string.
Variable World : Type.
Variable app : App World.

Local Abbreviation list_ :=
  (handleGetBounces getPagination pqErrMsg bounceQuerySortFields sortAsc sortDesc World app).
Local Abbreviation stmt_of c :=
  (listStmt bounceQuerySortFields sortAsc sortDesc (QueryBounces app) c).
Local Abbreviation args_of c := (listArgs getPagination c).
Local Abbreviation subscriber :=
  (handleGetSubscriberBounces pqErrMsg World app).

Lemma list_run (c : Context) (w : World) :
  list_ c w =
  match db_Select app (stmt_of c) (args_of c) w with
  | (inl err, w1) =>
      (inl (errorFetching pqErrMsg err),
       [EvSelect (stmt_of c) (args_of c); EvLog "error fetching bounces: %v" err], w1)
  | (inr [], w1) =>
      (inr (JSON StatusOK (okWrap (mkWrap [] 0 0 0))),
       [EvSelect (stmt_of c) (args_of c)], w1)
  | (inr (r0 :: rest), w1) =>
      (inr (JSON StatusOK
              (if 0 <? fst (strconv.Atoi (Param c "id")) then okBounce r0
               else okWrap (mkWrap (r0 :: rest) (Total r0)
                                   (pgPerPage (getPagination (Query c) 20 50))
                                   (pgPage (getPagination (Query c) 20 50))))),
       [EvSelect (stmt_of c) (args_of c)], w1)
  end.
Proof.
  unfold handleGetBounces, listStmt, listArgs. cbv zeta. run.
  destruct (db_Select app _ _ w) as [[err|rows] w1]; [reflexivity|].
  destruct rows as [|r0 rest]; [reflexivity|].
  destruct (0 <? fst (strconv.Atoi (Param c "id"))); reflexivity.
Qed.

(** X13.  When the list query fails, the caller gets a 500 with the
    error-fetching message built from [pqErrMsg] of the database error; the
    error is logged once and the query is not retried. *)
Theorem list_database_failure (c : Context) (w w1 : World) (err : Err) :
  db_Select app (stmt_of c) (args_of c) w = (inl err, w1) ->
  list_ c w =
  (inl (errorFetching pqErrMsg err),
   [EvSelect (stmt_of c) (args_of c); EvLog "error fetching bounces: %v" err], w1) /\
  classify (errorFetching pqErrMsg err) = Some UpstreamFailure.
Proof. intros H. rewrite list_run, H. split; reflexivity. Qed.

(** X14.  When the query returns no row the answer is a success carrying
    an empty result list with total, page and per-page all zero, also when a
    single record was asked for by id and whatever page was requested. *)
Theorem list_empty_result (c : Context) (w w1 : World) :
  db_Select app (stmt_of c) (args_of c) w = (inr [], w1) ->
  list_ c w =
  (inr (JSON StatusOK (okWrap (mkWrap [] 0 0 0))), [EvSelect (stmt_of c) (args_of c)], w1).
Proof. intros H. rewrite list_run, H. reflexivity. Qed.

(** X15.  With rows returned: a path id that parses to a positive number
    selects the single-record form, which answers with the first row alone
    and no count; any other path id (absent, not a number, zero or negative)
    selects the list form, which answers with all the rows, the total read
    from the first row and the page and per-page of the pagination.  A path
    id that is not a number is passed to the query as 0. *)
Theorem list_single_or_page (c : Context) (w w1 : World) (r0 : Bounce) (rest : list Bounce) :
  db_Select app (stmt_of c) (args_of c) w = (inr (r0 :: rest), w1) ->
  (0 < fst (strconv.Atoi (Param c "id")) ->
   outcome (list_ c w) = inr (JSON StatusOK (okBounce r0))) /\
  (fst (strconv.Atoi (Param c "id")) <= 0 ->
   outcome (list_ c w) =
   inr (JSON StatusOK
          (okWrap (mkWrap (r0 :: rest) (Total r0)
                          (pgPerPage (getPagination (Query c) 20 50))
                          (pgPage (getPagination (Query c) 20 50)))))) /\
  (snd (strconv.Atoi (Param c "id")) = Some strconv.ErrSyntax ->
   hd_error (args_of c) = Some (AInt 0) /\
   outcome (list_ c w) =
   inr (JSON StatusOK
          (okWrap (mkWrap (r0 :: rest) (Total r0)
                          (pgPerPage (getPagination (Query c) 20 50))
                          (pgPage (getPagination (Query c) 20 50)))))).
Proof.
  intros H. rewrite list_run, H. unfold outcome. simpl.
  split; [|split].
  - intros Hid. apply Z.ltb_lt in Hid. rewrite Hid. reflexivity.
  - intros Hid. destruct (Z.ltb_spec 0 (fst (strconv.Atoi (Param c "id")))); [lia|reflexivity].
  - intros Hsyn. unfold strconv.Atoi in *.
    rewrite (ParseInt_syntax_is_zero _ Hsyn). split; reflexivity.
Qed.

(** X16.  The list handler is read-only and asks once: whatever the
    request and the database do, its trace holds exactly one query, the one
    built from the request, possibly one log line, and nothing else. *)
Theorem list_runs_one_query_only (c : Context) (w : World) :
  filter isSelect (trace (list_ c w)) = [EvSelect (stmt_of c) (args_of c)] /\
  forallb (fun e => isSelect e || isLog e) (trace (list_ c w)) = true /\
  recorded (trace (list_ c w)) = [] /\
  filter isDelete (trace (list_ c w)) = [].
Proof.
  rewrite list_run.
  destruct (db_Select app _ _ w) as [[err|[|r0 rest]] w1]; repeat split.
Qed.

Lemma subscriber_run (c : Context) (w : World) :
  subscriber c w =
  if fst (strconv.ParseInt (Param c "id")) <? 1 then (inl invalidID, [], w)
  else
    match db_Select app (subscriberStmt (QueryBounces app)) (subscriberArgs (Param c "id")) w with
    | (inl err, w1) =>
        (inl (errorFetching pqErrMsg err),
         [EvSelect (subscriberStmt (QueryBounces app)) (subscriberArgs (Param c "id"));
          EvLog "error fetching bounces: %v" err], w1)
    | (inr out, w1) =>
        (inr (JSON StatusOK (okBounces out)),
         [EvSelect (subscriberStmt (QueryBounces app)) (subscriberArgs (Param c "id"))], w1)
    end.
Proof.
  unfold handleGetSubscriberBounces, subscriberStmt, subscriberArgs. cbv zeta.
  destruct (_ <? 1); [reflexivity|]. run.
  destruct (db_Select app _ _ w) as [[err|rows] w1]; reflexivity.
Qed.

(** X17.  The per-subscriber list refuses a subscriber id that is missing,
    not a number, or below 1 with the 400 invalid-id error, before any
    query. *)
Theorem subscriber_invalid_id (c : Context) (w : World) :
  Param c "id" = "" \/
  snd (strconv.ParseInt (Param c "id")) = Some strconv.ErrSyntax \/
  fst (strconv.ParseInt (Param c "id")) < 1 ->
  subscriber c w = (inl invalidID, [], w).
Proof.
  intros H. rewrite subscriber_run.
  assert (Hlt : fst (strconv.ParseInt (Param c "id")) < 1).
  { destruct H as [H|[H|H]].
    - rewrite H. simpl. lia.
    - rewrite (ParseInt_syntax_is_zero _ H). lia.
    - exact H. }
  apply Z.ltb_lt in Hlt. rewrite Hlt. reflexivity.
Qed.

(** X18.  For a subscriber id of at least 1 the per-subscriber list runs
    one fixed query: ascending by creation time, no id or campaign or source
    filter, offset 0 and limit 1000, keyed by the path id as it was written.
    All rows are returned as they come, an empty list included; a database
    error gives a 500 and is logged. *)
Theorem subscriber_fixed_query (c : Context) (w w1 : World) :
  1 <= fst (strconv.ParseInt (Param c "id")) ->
  (forall out,
      db_Select app (Sprintf (QueryBounces app) ["created_at"; "ASC"])
                [AInt 0; AInt 0; AStr (Param c "id"); AStr ""; AInt 0; AInt 1000] w
      = (inr out, w1) ->
      subscriber c w =
      (inr (JSON StatusOK (okBounces out)),
       [EvSelect (Sprintf (QueryBounces app) ["created_at"; "ASC"])
                 [AInt 0; AInt 0; AStr (Param c "id"); AStr ""; AInt 0; AInt 1000]], w1)) /\
  (forall err,
      db_Select app (Sprintf (QueryBounces app) ["created_at"; "ASC"])
                [AInt 0; AInt 0; AStr (Param c "id"); AStr ""; AInt 0; AInt 1000] w
      = (inl err, w1) ->
      outcome (subscriber c w) = inl (errorFetching pqErrMsg err) /\
      filter isLog (trace (subscriber c w)) = [EvLog "error fetching bounces: %v" err]).
Proof.
  intros Hid. rewrite subscriber_run.
  destruct (Z.ltb_spec (fst (strconv.ParseInt (Param c "id"))) 1); [lia|].
  unfold subscriberStmt, subscriberArgs.
  split; intros x Hx; rewrite Hx; [reflexivity | split; reflexivity].
Qed.

(** X19.  The per-subscriber list looks at the path parameters only: the
    sort, filter and page values of the request change nothing. *)
Theorem subscriber_ignores_query (c c' : Context) (w : World) :
  Params c' = Params c ->
  subscriber c' w = subscriber c w.
Proof.
  intros H. rewrite !subscriber_run. unfold Param. rewrite H. reflexivity.
Qed.

End ListingEdges.

(** ** More on deletion *)

Lemma ParseBool_true_iff (s : string) :
  fst (strconv.ParseBool s) = true <-> In s trueSpellings.
Proof.
  unfold strconv.ParseBool. fold trueSpellings.
  destruct (existsb (String.eqb s) trueSpellings) eqn:Ht.
  - simpl. split; [intros _|reflexivity].
    apply existsb_exists in Ht. destruct Ht as (x & Hin & Heq).
    apply String.eqb_eq in Heq. subst. exact Hin.
  - assert (Hnot : ~ In s trueSpellings).
    { intros Hin. assert (existsb (String.eqb s) trueSpellings = true) as Hex.
      { apply existsb_exists. exists s. split; [exact Hin | apply String.eqb_refl]. }
      congruence. }
    destruct (existsb (String.eqb s) ["0"; "f"; "F"; "FALSE"; "false"; "False"]);
      simpl; split; intros H; solve [discriminate | exfalso; apply Hnot; exact H].
Qed.

Section DeletionEdges.

Variable parseStringIDs : list string -> Err + list Z.
Variable pqErrMsg : Err -> string.
Variable World : Type.
Variable app : App World.

Local Abbreviation ids_of := (deleteIDs parseStringIDs).
Local Abbreviation delete := (handleDeleteBounces parseStringIDs pqErrMsg World app).

Lemma delete_run (c : Context) (w : World) :
  delete c w =
  match ids_of c with
  | inl e => (inl e, [], w)
  | inr IDs =>
      match DeleteBounces_Exec app IDs w with
      | (Some err, w1) =>
          (inl (errorDeleting pqErrMsg err),
           [EvDelete IDs; EvLog "error deleting bounces: %v" err], w1)
      | (None, w1) => (inr (JSON StatusOK okTrue), [EvDelete IDs], w1)
      end
  end.
Proof.
  unfold handleDeleteBounces, errorDeleting.
  destruct (ids_of c) as [e|IDs]; [reflexivity|]. run.
  destruct (DeleteBounces_Exec app IDs w) as [[err|] w1]; reflexivity.
Qed.

Lemma ids_of_error_is_400 (c : Context) (e : HTTPError) :
  ids_of c = inl e -> code e = StatusBadRequest /\ msgKey (message e) = "globals.messages.invalidID".
Proof.
  unfold deleteIDs.
  destruct (negb _).
  - destruct (_ <? 1); intros H; inversion H; split; reflexivity.
  - destruct (negb _); [|discriminate].
    destruct (parseStringIDs _) as [err|i]; [intros H; inversion H; split; reflexivity|].
    destruct (Nat.eqb _ 0); intros H; inversion H; split; reflexivity.
Qed.

(** X20.  Once the id array is assembled the delete statement is run
    once with it: on success the answer is 200 with [true]; on a database
    error the answer is a 500 with the error-deleting message and the error
    is logged. *)
Theorem delete_statement_outcome (c : Context) (w w1 : World) (IDs : list Z) :
  ids_of c = inr IDs ->
  (DeleteBounces_Exec app IDs w = (None, w1) ->
   delete c w = (inr (JSON StatusOK okTrue), [EvDelete IDs], w1)) /\
  (forall err,
      DeleteBounces_Exec app IDs w = (Some err, w1) ->
      delete c w =
      (inl (errorDeleting pqErrMsg err),
       [EvDelete IDs; EvLog "error deleting bounces: %v" err], w1) /\
      classify (errorDeleting pqErrMsg err) = Some UpstreamFailure).
Proof.
  intros Hi. rewrite delete_run, Hi. split.
  - intros ->. reflexivity.
  - intros err ->. split; reflexivity.
Qed.

(** X21.  With no path id and [all] not set, a failure of the id parser
    is answered with the 400 invalid-id message carrying the parser's error
    text, and the delete statement is not run. *)
Theorem delete_parse_error_is_returned (c : Context) (w : World) (err : Err) :
  Param c "id" = "" ->
  fst (strconv.ParseBool (QueryParam c "all")) = false ->
  parseStringIDs (values_All (Query c) "id") = inl err ->
  delete c w =
  (inl (NewHTTPError StatusBadRequest (Ts "globals.messages.invalidID" ["error"; err])),
   [], w).
Proof.
  intros Hp Ha He. rewrite delete_run. unfold deleteIDs. rewrite Hp, Ha, He. reflexivity.
Qed.

(** X22.  A call with a path id is decided by the path id alone: the
    [all] flag and the query ids of the request change nothing. *)
Theorem delete_path_id_ignores_query (c c' : Context) (w : World) :
  Params c' = Params c ->
  Param c "id" <> "" ->
  delete c' w = delete c w.
Proof.
  intros H Hp. rewrite !delete_run.
  assert (Hids : ids_of c' = ids_of c).
  { unfold deleteIDs. unfold Param in *. rewrite H.
    apply String.eqb_neq in Hp. rewrite Hp. reflexivity. }
  rewrite Hids. reflexivity.
Qed.

(** X23.  With no path id, [all] counts only in one of the spellings
    [strconv.ParseBool] reads as true ([1], [t], [T], [TRUE], [true],
    [True]): then the delete statement is run with an empty array and the
    id parser is not consulted.  Any other value of [all] is the same as no
    flag: the query ids decide, and with none of them the call fails as
    invalid-id. *)
Theorem delete_all_needs_a_true_spelling (c : Context) (w : World) :
  Param c "id" = "" ->
  (In (QueryParam c "all") trueSpellings -> ids_of c = inr []) /\
  (~ In (QueryParam c "all") trueSpellings ->
   ids_of c =
   match parseStringIDs (values_All (Query c) "id") with
   | inl err =>
       inl (NewHTTPError StatusBadRequest (Ts "globals.messages.invalidID" ["error"; err]))
   | inr [] => inl (NewHTTPError StatusBadRequest (Ts "globals.messages.invalidID" []))
   | inr i => inr i
   end) /\
  (~ In (QueryParam c "all") trueSpellings ->
   parseStringIDs (values_All (Query c) "id") = inr [] ->
   delete c w =
   (inl (NewHTTPError StatusBadRequest (Ts "globals.messages.invalidID" [])), [], w)).
Proof.
  intros Hp.
  assert (Hfalse : ~ In (QueryParam c "all") trueSpellings ->
                   fst (strconv.ParseBool (QueryParam c "all")) = false).
  { intros Hn. destruct (fst (strconv.ParseBool (QueryParam c "all"))) eqn:Hb; [|reflexivity].
    apply ParseBool_true_iff in Hb. contradiction. }
  split; [|split].
  - intros Hin. apply ParseBool_true_iff in Hin.
    unfold deleteIDs. rewrite Hp, Hin. reflexivity.
  - intros Hn. unfold deleteIDs. rewrite Hp, (Hfalse Hn). simpl.
    destruct (parseStringIDs _) as [err|[|i0 i]]; reflexivity.
  - intros Hn He. rewrite delete_run. unfold deleteIDs. rewrite Hp, (Hfalse Hn), He.
    reflexivity.
Qed.

(** X24.  The delete handler fails in two ways only: with a 400 invalid-id
    before anything is touched, or with a 500 after the one delete statement
    it ran failed.  It never runs more than one statement and never queries
    or records. *)
Theorem delete_failure_modes (c : Context) (w : World) :
  (forall e,
      outcome (delete c w) = inl e ->
      (code e = StatusBadRequest /\ msgKey (message e) = "globals.messages.invalidID" /\
       trace (delete c w) = [] /\ world (delete c w) = w) \/
      (code e = StatusInternalServerError /\
       exists IDs err,
         ids_of c = inr IDs /\
         trace (delete c w) = [EvDelete IDs; EvLog "error deleting bounces: %v" err])) /\
  (List.length (filter isDelete (trace (delete c w))) <= 1)%nat /\
  forallb (fun e => isDelete e || isLog e) (trace (delete c w)) = true.
Proof.
  rewrite delete_run.
  destruct (ids_of c) as [e0|IDs] eqn:Hi.
  - apply ids_of_error_is_400 in Hi. destruct Hi as [Hc Hm].
    unfold outcome, trace, world. simpl. split; [|split; [lia|reflexivity]].
    intros e H. inversion H; subst. left. repeat split; assumption.
  - destruct (DeleteBounces_Exec app IDs w) as [[err|] w1];
      unfold outcome, trace, world; simpl; (split; [|split; [lia|reflexivity]]).
    + intros e H. inversion H; subst. right. split; [reflexivity|].
      exists IDs, err. split; reflexivity.
    + intros e H. discriminate.
Qed.

End DeletionEdges.

(** ** More concrete calls *)

Module MoreRuns.

Import Fixture.

Lemma webhook_unreadable_body_witness :
  Cases.webhook true true (request "sendgrid" [] (inl "unexpected EOF")) w0 =
  (inl (NewHTTPError StatusBadRequest (Ts "globals.messages.internalError" [])),
   [EvLog "error reading ses notification body: %v" "unexpected EOF"], w0).
Proof.
  apply (webhook_unreadable_body IsEmail_model reUUID_model ToLower_ascii Cases.decode
           World (app true true) (request "sendgrid" [] (inl "unexpected EOF")) w0
           "unexpected EOF" eq_refl).
Defined.

Lemma webhook_unknown_service_name_witness :
  Cases.webhook true true (request "SES" [] (inr "notification")) w0 =
  (inl (NewHTTPError StatusBadRequest (Ts "bounces.unknownService" [])), [], w0).
Proof.
  apply (webhook_unknown_service_name IsEmail_model reUUID_model ToLower_ascii Cases.decode
           World (app true true) (request "SES" [] (inr "notification")) w0 "notification"
           eq_refl); discriminate.
Defined.

Lemma webhook_native_rejections_witness :
  Cases.webhook true true (request "" [] (inr "not json")) w0 =
  (inl (NewHTTPError StatusBadRequest (Ts "globals.messages.invalidData" [])), [], w0) /\
  Cases.webhook true true (request "" [] (inr Cases.bodyBadEmail)) w0 =
  (inl (NewHTTPError StatusBadRequest (T "globals.messages.invalidEmail")), [], w0).
Proof.
  split.
  - apply (webhook_native_rejections IsEmail_model reUUID_model ToLower_ascii Cases.decode
             World (app true true) (request "" [] (inr "not json")) w0 "not json"
             eq_refl eq_refl). reflexivity.
  - apply (webhook_native_rejections IsEmail_model reUUID_model ToLower_ascii Cases.decode
             World (app true true) (request "" [] (inr Cases.bodyBadEmail)) w0
             Cases.bodyBadEmail eq_refl eq_refl) with (j := Cases.jsonBadEmail);
      reflexivity.
Defined.

Lemma webhook_ses_adapter_failures_witness :
  Outage.webhook (request "ses" (snsHeader "SubscriptionConfirmation") (inr "confirm")) w0 =
  (inl invalidData,
   [EvSESSubscription "confirm";
    EvLog "error processing SNS (SES) subscription: %v" "confirmation request failed"], w0) /\
  Outage.webhook (request "ses" (snsHeader "Notification") (inr "notification")) w0 =
  (inl invalidData,
   [EvSESBounce "notification";
    EvLog "error processing SES notification: %v" "bad envelope"], w0).
Proof.
  split.
  - apply (webhook_ses_adapter_failures IsEmail_model reUUID_model ToLower_ascii decode
             World Outage.app
             (request "ses" (snsHeader "SubscriptionConfirmation") (inr "confirm"))
             w0 w0 "confirm" "confirmation request failed" eq_refl eq_refl eq_refl);
      [left; reflexivity | reflexivity].
  - apply (webhook_ses_adapter_failures IsEmail_model reUUID_model ToLower_ascii decode
             World Outage.app
             (request "ses" (snsHeader "Notification") (inr "notification"))
             w0 w0 "notification" "bad envelope" eq_refl eq_refl eq_refl); reflexivity.
Defined.


Lemma webhook_at_most_one_adapter_call_witness :
  filter isAdapterCall (trace (webhook true true nativeMixed w0)) = [].
Proof.
  apply (webhook_at_most_one_adapter_call IsEmail_model reUUID_model ToLower_ascii decode
           World (app true true) nativeMixed w0). reflexivity.
Defined.

Lemma record_loop_threads_the_world_witness :
  trace (recordBounces World Cases.storing three w0) = map EvRecord three /\
  table (world (recordBounces World Cases.storing three w0)) = three.
Proof.
  destruct (record_loop_threads_the_world World Cases.storing three w0) as [Hw Ht].
  split.
  - apply Ht. intros b w. reflexivity.
  - rewrite Hw. reflexivity.
Defined.

Lemma native_clock_read_iff_year_zero_witness :
  filter isClock (trace (Cases.webhook true true (request "" [] (inr Cases.bodyYearZero)) w0))
  = [EvNow] /\
  filter isClock (trace (Cases.webhook true true nativeMixed w0)) = [].
Proof.
  split.
  - apply (native_clock_read_iff_year_zero IsEmail_model reUUID_model ToLower_ascii
             Cases.decode World (app true true) (request "" [] (inr Cases.bodyYearZero)) w0
             Cases.bodyYearZero (unmarshalBounce Cases.jsonYearZero)
             eq_refl eq_refl eq_refl eq_refl).
  - apply (native_clock_read_iff_year_zero IsEmail_model reUUID_model ToLower_ascii
             Cases.decode World (app true true) nativeMixed w0
             bodyMixed (unmarshalBounce jsonMixed) eq_refl eq_refl eq_refl eq_refl).
Defined.

Lemma native_path_ignores_flags_and_headers_witness :
  webhook false false (request "" (snsHeader "Notification") (inr bodyMixed)) w0
  = webhook true true nativeMixed w0.
Proof.
  apply (native_path_ignores_flags_and_headers IsEmail_model reUUID_model ToLower_ascii
           decode World (app true true) (mkConstants false false) nativeMixed
           (request "" (snsHeader "Notification") (inr bodyMixed)) w0
           eq_refl eq_refl eq_refl).
Defined.

Lemma provider_flags_are_independent_witness :
  webhook true false (request "ses" (snsHeader "Notification") (inr "notification")) w0
  = webhook true true (request "ses" (snsHeader "Notification") (inr "notification")) w0 /\
  webhook false true threeSigned w0 = webhook true true threeSigned w0.
Proof.
  split.
  - destruct (provider_flags_are_independent IsEmail_model reUUID_model ToLower_ascii
                decode World (app true true) (mkConstants true false)
                (request "ses" (snsHeader "Notification") (inr "notification")) w0)
      as [H _].
    apply H; reflexivity.
  - destruct (provider_flags_are_independent IsEmail_model reUUID_model ToLower_ascii
                decode World (app true true) (mkConstants false true) threeSigned w0)
      as [_ H].
    apply H; reflexivity.
Defined.

Lemma validate_rejections_are_bad_requests_witness :
  code (NewHTTPError StatusBadRequest (T "globals.messages.invalidEmail")) = StatusBadRequest /\
  classify (NewHTTPError StatusBadRequest (T "globals.messages.invalidEmail"))
  = Some InvalidInput.
Proof.
  destruct (validate_rejections_are_bad_requests IsEmail_model reUUID_model
              (unmarshalBounce Cases.jsonBadEmail)
              (NewHTTPError StatusBadRequest (T "globals.messages.invalidEmail")) eq_refl)
    as (Hc & Hk & _).
  split; assumption.
Defined.

Lemma list_database_failure_witness :
  outcome (Cases.list_ Outage.app (Cases.listById "") w0)
  = inl (errorFetching (fun e => e) Outage.down) /\
  filter isLog (trace (Cases.list_ Outage.app (Cases.listById "") w0))
  = [EvLog "error fetching bounces: %v" Outage.down].
Proof.
  destruct (list_database_failure getPagination (fun e => e) sortFields "asc" "desc"
              World Outage.app (Cases.listById "") w0 w0 Outage.down eq_refl) as [H _].
  unfold Cases.list_. rewrite H. split; reflexivity.
Defined.

Lemma list_empty_result_witness :
  outcome (Cases.list_ (app true true) (Cases.listById "7") w0)
  = inr (JSON StatusOK (okWrap (mkWrap [] 0 0 0))).
Proof.
  unfold Cases.list_.
  rewrite (list_empty_result getPagination (fun e => e) sortFields "asc" "desc"
             World (app true true) (Cases.listById "7") w0 w0 eq_refl).
  reflexivity.
Defined.

Lemma list_single_or_page_witness :
  outcome (Cases.list_ (app true true) (Cases.listById "1") Cases.w3)
  = inr (JSON StatusOK (okBounce Cases.firstRow)) /\
  outcome (Cases.list_ (app true true) (Cases.listById "first") Cases.w3)
  = inr (JSON StatusOK (okWrap (mkWrap (table Cases.w3) 3 20 1))).
Proof.
  split.
  - destruct (list_single_or_page getPagination (fun e => e) sortFields "asc" "desc"
                World (app true true) (Cases.listById "1") Cases.w3 Cases.w3
                Cases.firstRow (tl three) eq_refl) as (H & _).
    apply H. reflexivity.
  - destruct (list_single_or_page getPagination (fun e => e) sortFields "asc" "desc"
                World (app true true) (Cases.listById "first") Cases.w3 Cases.w3
                Cases.firstRow (tl three) eq_refl) as (_ & _ & H).
    destruct (H eq_refl) as [_ Ho]. exact Ho.
Defined.

Lemma subscriber_invalid_id_witness :
  Cases.subscriber (app true true) (Cases.subscriberCall "" []) Cases.w3 = (inl invalidID, [], Cases.w3) /\
  Cases.subscriber (app true true) (Cases.subscriberCall "abc" []) Cases.w3
  = (inl invalidID, [], Cases.w3) /\
  Cases.subscriber (app true true) (Cases.subscriberCall "0" []) Cases.w3
  = (inl invalidID, [], Cases.w3).
Proof.
  split; [|split].
  - apply (subscriber_invalid_id (fun e => e) World (app true true)
             (Cases.subscriberCall "" []) Cases.w3). left. reflexivity.
  - apply (subscriber_invalid_id (fun e => e) World (app true true)
             (Cases.subscriberCall "abc" []) Cases.w3). right. left. reflexivity.
  - apply (subscriber_invalid_id (fun e => e) World (app true true)
             (Cases.subscriberCall "0" []) Cases.w3). right. right. reflexivity.
Defined.

Lemma subscriber_fixed_query_witness :
  Cases.subscriber (app true true) (Cases.subscriberCall "12" []) Cases.w3
  = (inr (JSON StatusOK (okBounces (table Cases.w3))),
     [EvSelect (Sprintf "SELECT * FROM bounces ORDER BY %s %s" ["created_at"; "ASC"])
               [AInt 0; AInt 0; AStr "12"; AStr ""; AInt 0; AInt 1000]], Cases.w3) /\
  outcome (Cases.subscriber Outage.app (Cases.subscriberCall "12" []) w0)
  = inl (errorFetching (fun e => e) Outage.down).
Proof.
  split.
  - destruct (subscriber_fixed_query (fun e => e) World (app true true)
                (Cases.subscriberCall "12" []) Cases.w3 Cases.w3) as [H _]; [discriminate|].
    apply H. reflexivity.
  - destruct (subscriber_fixed_query (fun e => e) World Outage.app
                (Cases.subscriberCall "12" []) w0 w0) as [_ H]; [discriminate|].
    destruct (H Outage.down eq_refl) as [Ho _]. exact Ho.
Defined.

Lemma subscriber_ignores_query_witness :
  Cases.subscriber (app true true)
                   (Cases.subscriberCall "12" [("order_by", ["email"]); ("order", ["desc"])]) Cases.w3
  = Cases.subscriber (app true true) (Cases.subscriberCall "12" []) Cases.w3.
Proof.
  apply (subscriber_ignores_query (fun e => e) World (app true true)
           (Cases.subscriberCall "12" [])
           (Cases.subscriberCall "12" [("order_by", ["email"]); ("order", ["desc"])])
           Cases.w3 eq_refl).
Defined.

Lemma delete_statement_outcome_witness :
  Cases.delete (app true true) (deleteCall [("id", "1")] []) Cases.w3
  = (inr (JSON StatusOK okTrue), [EvDelete [1]], mkWorld (tl three) t2021) /\
  Cases.delete Outage.app (deleteCall [("id", "1")] []) Cases.w3
  = (inl (errorDeleting (fun e => e) Outage.down),
     [EvDelete [1]; EvLog "error deleting bounces: %v" Outage.down], Cases.w3).
Proof.
  split.
  - destruct (delete_statement_outcome parseStringIDs_model (fun e => e) World
                (app true true) (deleteCall [("id", "1")] []) Cases.w3
                (mkWorld (tl three) t2021) [1] eq_refl) as [H _].
    apply H. reflexivity.
  - destruct (delete_statement_outcome parseStringIDs_model (fun e => e) World
                Outage.app (deleteCall [("id", "1")] []) Cases.w3 Cases.w3 [1] eq_refl)
      as [_ H].
    destruct (H Outage.down eq_refl) as [Hd _]. exact Hd.
Defined.

Lemma delete_parse_error_is_returned_witness :
  Cases.delete (app true true) (deleteCall [] [("id", ["3"; "x"])]) Cases.w3
  = (inl (NewHTTPError StatusBadRequest
            (Ts "globals.messages.invalidID" ["error"; "invalid syntax"])), [], Cases.w3).
Proof.
  apply (delete_parse_error_is_returned parseStringIDs_model (fun e => e) World
           (app true true) (deleteCall [] [("id", ["3"; "x"])]) Cases.w3 "invalid syntax"
           eq_refl eq_refl eq_refl).
Defined.

Lemma delete_path_id_ignores_query_witness :
  Cases.delete (app true true) (deleteCall [("id", "1")] [("all", ["true"]); ("id", ["x"])])
               Cases.w3
  = Cases.delete (app true true) (deleteCall [("id", "1")] []) Cases.w3.
Proof.
  apply (delete_path_id_ignores_query parseStringIDs_model (fun e => e) World
           (app true true) (deleteCall [("id", "1")] [])
           (deleteCall [("id", "1")] [("all", ["true"]); ("id", ["x"])]) Cases.w3 eq_refl).
  discriminate.
Defined.

Lemma delete_all_needs_a_true_spelling_witness :
  deleteIDs parseStringIDs_model (deleteCall [] [("all", ["T"])]) = inr [] /\
  Cases.delete (app true true) (deleteCall [] [("all", ["yes"])]) Cases.w3
  = (inl (NewHTTPError StatusBadRequest (Ts "globals.messages.invalidID" [])), [], Cases.w3).
Proof.
  split.
  - destruct (delete_all_needs_a_true_spelling parseStringIDs_model (fun e => e) World
                (app true true) (deleteCall [] [("all", ["T"])]) Cases.w3 eq_refl)
      as (H & _).
    apply H. simpl. tauto.
  - destruct (delete_all_needs_a_true_spelling parseStringIDs_model (fun e => e) World
                (app true true) (deleteCall [] [("all", ["yes"])]) Cases.w3 eq_refl)
      as (_ & _ & H).
    apply H; [|reflexivity].
    simpl. intros [H1|[H1|[H1|[H1|[H1|[H1|[]]]]]]]; discriminate.
Defined.

End MoreRuns.
